(** * epub_renamer: the stand-alone renamer [ep_rename.py]

    A shallow embedding of [ep_rename.py] and of the parts of the Python
    runtime it calls ([str], [re], [xml.dom.minidom], [zipfile], [os.path]),
    followed by the properties of the program.

    Conventions of the embedding.
    - A Python [str] is a Rocq [string], one [ascii] per code point: the
      embedding covers the code points U+0000 to U+00FF, and the character
      classes below are Python's on that range.
    - A raised exception is the [Raise] case of [result]; [try]/[except] is
      [try_except].
    - A parsed XML document is a [node] tree, as [minidom] builds it.  The
      bytes of an archive member are represented by what
      [minidom.parseString] makes of them ([content]).
    - The file system is a finite map from paths to files; an archive is a
      finite map from member names to contents.  The main loop runs over
      the directory listing that [os.walk] yields, which it takes as its
      input. *)

From Stdlib Require Import Ascii String List Bool NArith Lia.
From stdpp Require Import base option list strings gmap.

Local Open Scope string_scope.
Local Open Scope list_scope.

(** ** Exceptions *)

(** The exceptions the program can meet.  [Exception msg] is the plain
    [Exception] that [get_epub_metadata] raises itself; the others are
    raised by the runtime.  All of them derive from Python's [Exception]. *)
Inductive exn : Type :=
| Exception (msg : string)
| KeyError
| IndexError
| AttributeError
| ExpatError
| FileNotFoundError.

Inductive result (A : Type) : Type :=
| Ok (a : A)
| Raise (e : exn).

Arguments Ok {A} a.
Arguments Raise {A} e.

Definition bind {A B : Type} (r : result A) (k : A -> result B) : result B :=
  match r with
  | Ok a => k a
  | Raise e => Raise e
  end.

Notation "'do' x <- r ; k" := (bind r (fun x => k))
  (at level 10, x name, r at level 100, k at level 200, only parsing).

#[global] Instance result_fmap : FMap result := fun A B f r =>
  match r with
  | Ok a => Ok (f a)
  | Raise e => Raise e
  end.

(** [try: body except (caught): handler]. *)
Definition try_except {A : Type} (body : result A) (caught : exn -> bool)
    (handler : result A) : result A :=
  match body with
  | Ok a => Ok a
  | Raise e => if caught e then handler else Raise e
  end.

Definition is_KeyError (e : exn) : bool :=
  match e with KeyError => true | _ => false end.

Definition is_IndexError (e : exn) : bool :=
  match e with IndexError => true | _ => false end.

(** [l[0]] *)
Definition index0 {A : Type} (l : list A) : result A :=
  match l with
  | [] => Raise IndexError
  | x :: _ => Ok x
  end.

(** ** Python strings *)

Module Py.

Definition code (c : ascii) : N := N_of_ascii c.

Definition between (lo hi n : N) : bool := ((lo <=? n) && (n <=? hi))%N.

(** [str.isspace] of one character, which is also [\s] of [re] on [str]
    patterns: TAB..CR, FS..US, SPACE, NEL and NO-BREAK SPACE. *)
Definition isspace (c : ascii) : bool :=
  let n := code c in
  between 9 13 n || between 28 32 n || (n =? 133)%N || (n =? 160)%N.

(** [str.isalnum] of one character. *)
Definition isalnum (c : ascii) : bool :=
  let n := code c in
  between 48 57 n || between 65 90 n || between 97 122 n
  || (n =? 170)%N || between 178 179 n || (n =? 181)%N || between 185 186 n
  || between 188 190 n || between 192 214 n || between 216 246 n
  || between 248 255 n.

(** [\w] of [re] on a [str] pattern: alphanumeric or the underscore. *)
Definition isword (c : ascii) : bool := isalnum c || Ascii.eqb c "_".

(** [str.lower] of one character. *)
Definition lower_char (c : ascii) : ascii :=
  let n := code c in
  if between 65 90 n || (between 192 222 n && negb (n =? 215)%N)
  then ascii_of_N (n + 32) else c.

Fixpoint lower (s : string) : string :=
  match s with
  | EmptyString => EmptyString
  | String c s' => String (lower_char c) (lower s')
  end.

Fixpoint lstrip (s : string) : string :=
  match s with
  | EmptyString => EmptyString
  | String c s' => if isspace c then lstrip s' else s
  end.

Fixpoint rstrip (s : string) : string :=
  match s with
  | EmptyString => EmptyString
  | String c s' =>
      match rstrip s' with
      | EmptyString => if isspace c then EmptyString else String c EmptyString
      | r => String c r
      end
  end.

(** [s.strip()] *)
Definition strip (s : string) : string := rstrip (lstrip s).

(** [s.endswith(suffix)] *)
Fixpoint endswith (s suffix : string) : bool :=
  String.eqb s suffix
  || match s with
     | EmptyString => false
     | String _ s' => endswith s' suffix
     end.

(** Truth value of a string: [bool(s)]. *)
Definition truthy (s : string) : bool :=
  match s with EmptyString => false | _ => true end.

(** [s[:n]] *)
Definition slice_to (n : nat) (s : string) : string := substring 0 n s.

(** The text an f-string puts for a value that is a string or [None]. *)
Definition format_value (v : option string) : string :=
  match v with
  | Some s => s
  | None => "None"
  end.

(** [re.sub(r"\s+", " ", s)]: the scan replaces each maximal run of
    whitespace by one space.  [in_run] tells that the previous character
    belonged to a run whose space is already written. *)
Fixpoint sub_spaces_from (in_run : bool) (s : string) : string :=
  match s with
  | EmptyString => EmptyString
  | String c s' =>
      if isspace c
      then if in_run then sub_spaces_from true s'
           else String " " (sub_spaces_from true s')
      else String c (sub_spaces_from false s')
  end.

Definition sub_spaces (s : string) : string := sub_spaces_from false s.

(** The character class [[^-\w.\s]] under [(?u)]. *)
Definition unwanted (c : ascii) : bool :=
  negb (Ascii.eqb c "-" || isword c || Ascii.eqb c "." || isspace c).

(** [re.sub(r"(?u)[^-\w.\s]", "", s)] *)
Fixpoint sub_unwanted (s : string) : string :=
  match s with
  | EmptyString => EmptyString
  | String c s' =>
      if unwanted c then sub_unwanted s' else String c (sub_unwanted s')
  end.

(** [os.path.join(a, b)] for two components. *)
Definition path_join (a b : string) : string :=
  if String.prefix "/" b then b
  else if String.eqb a "" || endswith a "/" then a +:+ b
  else a +:+ "/" +:+ b.

(** [os.path.basename(p)]: what follows the last slash. *)
Fixpoint basename_from (acc p : string) : string :=
  match p with
  | EmptyString => acc
  | String c p' =>
      if Ascii.eqb c "/" then basename_from EmptyString p'
      else basename_from (acc +:+ String c EmptyString) p'
  end.

Definition basename (p : string) : string := basename_from EmptyString p.

(** [sep.join(l)] *)
Fixpoint join (sep : string) (l : list string) : string :=
  match l with
  | [] => EmptyString
  | [w] => w
  | w :: l' => w +:+ sep +:+ join sep l'
  end.

(** [s.split()]: the maximal runs of characters that are not whitespace,
    in their order. *)
Fixpoint split (s : string) : list string :=
  match s with
  | EmptyString => []
  | String c s' =>
      if isspace c then split s'
      else
        match s' with
        | EmptyString => [String c EmptyString]
        | String d _ =>
            if isspace d then String c EmptyString :: split s'
            else
              match split s' with
              | w :: ws => String c w :: ws
              | [] => [String c EmptyString]
              end
        end
  end.

(** Every character of [s] satisfies [p]. *)
Fixpoint all_chars (p : ascii -> bool) (s : string) : bool :=
  match s with
  | EmptyString => true
  | String c s' => p c && all_chars p s'
  end.

(** [s] begins with whitespace. *)
Definition leading_space (s : string) : bool :=
  match s with
  | EmptyString => false
  | String c _ => isspace c
  end.

(** [s] ends with whitespace. *)
Fixpoint trailing_space (s : string) : bool :=
  match s with
  | EmptyString => false
  | String c EmptyString => isspace c
  | String _ s' => trailing_space s'
  end.

End Py.

Arguments Py.isspace : simpl never.
Arguments Py.isalnum : simpl never.
Arguments Py.isword : simpl never.
Arguments Py.unwanted : simpl never.
Arguments Py.lower_char : simpl never.

(** ** [xml.dom.minidom] *)

Module Minidom.

(** A DOM node.  [Document] and [Element] have children; the other nodes
    are childless. *)
#[warning="-register-all"]
Inductive node : Type :=
| Document (childNodes : list node)
| Element (tagName : string) (attributes : list (string * string))
    (childNodes : list node)
| Text (data : string)
| CDATASection (data : string)
| Comment (data : string)
| ProcessingInstruction (target data : string)
| DocumentType (name : string).

Definition ELEMENT_NODE : N := 1.
Definition TEXT_NODE : N := 3.
Definition CDATA_SECTION_NODE : N := 4.
Definition PROCESSING_INSTRUCTION_NODE : N := 7.
Definition COMMENT_NODE : N := 8.
Definition DOCUMENT_NODE : N := 9.
Definition DOCUMENT_TYPE_NODE : N := 10.

Definition nodeType (n : node) : N :=
  match n with
  | Document _ => DOCUMENT_NODE
  | Element _ _ _ => ELEMENT_NODE
  | Text _ => TEXT_NODE
  | CDATASection _ => CDATA_SECTION_NODE
  | Comment _ => COMMENT_NODE
  | ProcessingInstruction _ _ => PROCESSING_INSTRUCTION_NODE
  | DocumentType _ => DOCUMENT_TYPE_NODE
  end.

Definition nodeName (n : node) : string :=
  match n with
  | Document _ => "#document"
  | Element t _ _ => t
  | Text _ => "#text"
  | CDATASection _ => "#cdata-section"
  | Comment _ => "#comment"
  | ProcessingInstruction t _ => t
  | DocumentType nm => nm
  end.

(** [node.nodeValue]: the data of a character-data node or of a processing
    instruction, [None] for the others. *)
Definition nodeValue (n : node) : option string :=
  match n with
  | Text d | CDATASection d | Comment d | ProcessingInstruction _ d => Some d
  | Document _ | Element _ _ _ | DocumentType _ => None
  end.

Definition childNodes (n : node) : list node :=
  match n with
  | Document cs | Element _ _ cs => cs
  | _ => []
  end.

(** [node.firstChild], [None] for a node without children. *)
Definition firstChild (n : node) : option node := head (childNodes n).

(** [element.attributes[name].value] *)
Fixpoint attribute (attrs : list (string * string)) (name : string)
    : result string :=
  match attrs with
  | [] => Raise KeyError
  | (k, v) :: attrs' => if String.eqb k name then Ok v else attribute attrs' name
  end.

Definition attributes (n : node) : list (string * string) :=
  match n with
  | Element _ a _ => a
  | _ => []
  end.

(** What [_get_elements_by_tagName_helper] does with one child [n] of the
    parent: the child itself when it is an element of that name (or the name
    is the wildcard), before the matches below it. *)
Definition tag_matches (name : string) (n : node) : bool :=
  (nodeType n =? ELEMENT_NODE)%N
  && (String.eqb name "*" || String.eqb (nodeName n) name).

(** [parent.getElementsByTagName(name)] *)
Fixpoint getElementsByTagName (parent : node) (name : string) : list node :=
  let fix helper (ns : list node) : list node :=
    match ns with
    | [] => []
    | n :: ns' =>
        (if tag_matches name n then [n] else [])
        ++ getElementsByTagName n name ++ helper ns'
    end in
  match parent with
  | Document cs | Element _ _ cs => helper cs
  | _ => []
  end.

End Minidom.

Export Minidom.

(** ** Archives and the file system *)

(** The bytes of an archive member, by what [minidom.parseString] does with
    them: it returns the document or raises [ExpatError]. *)
Inductive content : Type :=
| WellFormed (doc : node)
| Malformed.

Definition parseString (c : content) : result node :=
  match c with
  | WellFormed doc => Ok doc
  | Malformed => Raise ExpatError
  end.

(** A file of the file system: a ZIP archive with its members, or anything
    else (a file that [zipfile.is_zipfile] rejects, a directory). *)
Inductive file : Type :=
| Zip (members : gmap string content)
| NotZip.

(** [zf.read(name)] *)
Definition zf_read (zf : gmap string content) (name : string) : result content :=
  match zf !! name with
  | Some c => Ok c
  | None => Raise KeyError
  end.

(** What the program can observe and change: the files by path and the
    lines printed so far. *)
Record world : Type := World {
  files : gmap string file;
  stdout : list string
}.

(** The dictionary [get_epub_metadata] returns. *)
Record metadata : Type := Metadata {
  title : option string;
  authors : list string
}.

(** ** The program: [ep_rename.py] *)

(** The value of [value] in [__discover_dc] and what the function returns:
    one text or [None] when [first_only], a list otherwise. *)
Inductive dc_value : Type :=
| DcFirst (v : option string)
| DcAll (l : list string).

(** [bool(value)] for the [value] of the [first_only] branch. *)
Definition truthy_value (v : option string) : bool :=
  match v with
  | Some s => Py.truthy s
  | None => false
  end.

(** One pass of the [first_only] branch over the tag [name], starting from
    the current [value]:
    [node = opf.getElementsByTagName(name)[0].firstChild],
    [if node: value = node.nodeValue], under
    [except (KeyError, IndexError): pass]. *)
Definition first_pass (opf_xmldoc : node) (name : string)
    (value : option string) : result (option string) :=
  try_except
    (do n <- index0 (getElementsByTagName opf_xmldoc name);
     match firstChild n with
     | Some node => Ok (nodeValue node)
     | None => Ok value
     end)
    (fun e => is_KeyError e || is_IndexError e)
    (Ok value).

(** One pass of the other branch:
    [[n.firstChild.nodeValue for n in opf.getElementsByTagName(name)
      if n.firstChild]]. *)
Definition all_pass (opf_xmldoc : node) (name : string) : list (option string) :=
  omap (fun n => nodeValue <$> firstChild n) (getElementsByTagName opf_xmldoc name).

(** [v.strip()] of a list element: [None] has no [strip]. *)
Definition strip_value (v : option string) : result string :=
  match v with
  | Some s => Ok (Py.strip s)
  | None => Raise AttributeError
  end.

(** [[v.strip() for v in value]] *)
Fixpoint strip_all (value : list (option string)) : result (list string) :=
  match value with
  | [] => Ok []
  | v :: value' =>
      do s <- strip_value v;
      do l <- strip_all value';
      Ok (s :: l)
  end.

Definition __discover_dc (opf_xmldoc : node) (name : string) (first_only : bool)
    : result dc_value :=
  if first_only then
    do value <- first_pass opf_xmldoc name None;
    do value <- (if negb (truthy_value value)
                 then first_pass opf_xmldoc ("dc:" +:+ name) value
                 else Ok value);
    Ok (DcFirst (if truthy_value value then Py.strip <$> value else value))
  else
    let value := all_pass opf_xmldoc name in
    let value := if bool_decide (value = [])
                 then all_pass opf_xmldoc ("dc:" +:+ name) else value in
    do l <- strip_all value;
    Ok (DcAll l).

(** The text of a [DcFirst], the list of a [DcAll]. *)
Definition dc_first (v : dc_value) : option string :=
  match v with DcFirst t => t | DcAll _ => None end.

Definition dc_all (v : dc_value) : list string :=
  match v with DcAll l => l | DcFirst _ => [] end.

Definition _discover_title (opf_xmldoc : node) : result (option string) :=
  do v <- __discover_dc opf_xmldoc "title" true;
  Ok (dc_first v).

(** The generator, as the list of the nodes it yields, in the order it
    yields them. *)
Fixpoint iterate_all_tags (root : node) : list node :=
  let fix children (ns : list node) : list node :=
    match ns with
    | [] => []
    | node :: ns' =>
        if negb (nodeType node =? ELEMENT_NODE)%N then children ns'
        else node :: iterate_all_tags node ++ children ns'
    end in
  match root with
  | Document cs | Element _ _ cs => children cs
  | _ => []
  end.

(** [tag.childNodes and tag.firstChild.nodeType == TEXT_NODE], with the
    [data] of that first child. *)
Definition first_text (tag : node) : option string :=
  match firstChild tag with
  | Some child =>
      if (nodeType child =? TEXT_NODE)%N then nodeValue child else None
  | None => None
  end.

(** The test that sets [found_author_tag]. *)
Definition is_author_tag (tag : node) : bool :=
  String.eqb (nodeName tag) "strong"
  && match first_text tag with
     | Some data => bool_decide (data ∈ ["Author"; "Authors"])
     | None => false
     end.

(** The [for] loop of [_find_author_from_dom] over the tags still to come,
    from the current [found_author_tag] and [authors]. *)
Fixpoint find_author_loop (tags : list node) (found_author_tag : bool)
    (authors : list string) : list string :=
  match tags with
  | [] => authors
  | tag :: tags' =>
      if negb found_author_tag then
        if is_author_tag tag
        then find_author_loop tags' true authors
        else find_author_loop tags' found_author_tag authors
      else if String.eqb (nodeName tag) "span" then authors
      else if String.eqb (nodeName tag) "p" then
        match first_text tag with
        | Some text =>
            let data := Py.strip text in
            if Py.truthy data
            then find_author_loop tags' found_author_tag (authors ++ [data])
            else find_author_loop tags' found_author_tag authors
        | None => find_author_loop tags' found_author_tag authors
        end
      else find_author_loop tags' found_author_tag authors
  end.

Definition _find_author_from_dom (xmldoc : node) : list string :=
  find_author_loop (iterate_all_tags xmldoc) false [].

(** The loop that removes duplicates: [unique_authors] after the authors
    still to come. *)
Fixpoint unique_loop (authors unique_authors : list string) : list string :=
  match authors with
  | [] => unique_authors
  | author :: authors' =>
      if bool_decide (author ∈ unique_authors)
      then unique_loop authors' unique_authors
      else unique_loop authors' (unique_authors ++ [author])
  end.

(** The authors before duplicates are removed. *)
Definition collect_authors (opf_xmldoc : node) (authors_html : option node)
    : result (list string) :=
  do v <- __discover_dc opf_xmldoc "creator" false;
  let authors := dc_all v in
  match authors, authors_html with
  | [], Some html => Ok (_find_author_from_dom html)
  | _, _ => Ok authors
  end.

Definition _discover_authors (opf_xmldoc : node) (authors_html : option node)
    : result (list string) :=
  do authors <- collect_authors opf_xmldoc authors_html;
  Ok (unique_loop authors []).

(** [zipfile.is_zipfile(filepath)] *)
Definition is_zipfile (fs : gmap string file) (filepath : string) : bool :=
  match fs !! filepath with
  | Some (Zip _) => true
  | _ => false
  end.

(** The first [try] block: from the archive to the package document. *)
Definition read_opf (zf : gmap string content) : result node :=
  do container <- zf_read zf "META-INF/container.xml";
  do container_xmldoc <- parseString container;
  do rootfile <- index0 (getElementsByTagName container_xmldoc "rootfile");
  do opf_filepath <- attribute (attributes rootfile) "full-path";
  do opf <- zf_read zf opf_filepath;
  parseString opf.

(** The second [try] block: the authors' page, [None] without it. *)
Definition read_authors_html (zf : gmap string content) : result (option node) :=
  try_except
    (do html <- zf_read zf "OEBPS/pr02.html";
     do doc <- parseString html;
     Ok (Some doc))
    is_KeyError
    (Ok None).

(** [get_epub_metadata(filepath)] on the file system [fs].  The paths of
    [fs] are taken from the working directory, which the program never
    changes, so [os.path.abspath] names the same file. *)
Definition get_epub_metadata (fs : gmap string file) (filepath : string)
    : result metadata :=
  match fs !! filepath with
  | Some (Zip zf) =>
      do opf_xmldoc <-
        try_except (read_opf zf) is_IndexError
          (Raise (Exception ("Cannot parse raw metadata from "
                             +:+ Py.basename filepath)));
      do authors_html <- read_authors_html zf;
      do t <- _discover_title opf_xmldoc;
      do a <- _discover_authors opf_xmldoc authors_html;
      Ok (Metadata t a)
  | _ => Raise (Exception ("Unknown file " +:+ Py.basename filepath))
  end.

Definition clean_fname (name : string) : string :=
  let s := Py.strip (Py.sub_spaces name) in
  Py.sub_unwanted s.

Definition stopwords : list string := ["the"; "a"; "at"].

(** [sanitize_title], which [ep_rename.py] defines and does not call and
    [epub_rename.py] applies to the title. *)
Definition sanitize_title (s : string) : string :=
  let words :=
    filter (fun w => Py.lower w ∉ stopwords) (Py.split s) in
  Py.join " " words.

(** Lines 173 to 176 of [process_file]: the destination name for a title
    and an author. *)
Definition destname_of (title : option string) (author : string) : string :=
  let destname := clean_fname (Py.format_value title +:+ " - " +:+ author) in
  let destname := if Nat.ltb 254 (String.length destname)
                  then Py.slice_to 254 destname else destname in
  destname +:+ ".epub".

(** [os.path.exists(path)] *)
Definition path_exists (fs : gmap string file) (path : string) : bool :=
  bool_decide (is_Some (fs !! path)).

(** [os.rename(src, dst)]: the file leaves [src] for [dst]. *)
Definition rename (fs : gmap string file) (src dst : string)
    : result (gmap string file) :=
  match fs !! src with
  | Some f => Ok (<[dst := f]> (delete src fs))
  | None => Raise FileNotFoundError
  end.

(** The line printed for a rename: the two names in double quotes around
    [==>]. *)
Definition report (fname destname : string) : string :=
  let quote := String (ascii_of_N 34) EmptyString in
  quote +:+ fname +:+ quote +:+ " ==> " +:+ quote +:+ destname +:+ quote.

Definition process_file (fname dirpath : string) (w : world) : result world :=
  do meta <- get_epub_metadata (files w) (Py.path_join dirpath fname);
  let title := title meta in
  do author <- index0 (authors meta);
  let destname := destname_of title author in
  if negb (path_exists (files w) (Py.path_join dirpath destname))
  then
    do fs <- rename (files w) (Py.path_join dirpath fname)
               (Py.path_join dirpath destname);
    Ok (World fs (stdout w ++ [report fname destname]))
  else Ok w.

(** The filter of the main loop: [f.lower().endswith(".epub")]. *)
Definition is_candidate (f : string) : bool := Py.endswith (Py.lower f) ".epub".

(** The body of the inner loop: [try: process_file(f, dirpath)
    except Exception: pass]. *)
Definition try_process_file (dirpath : string) (w : world) (f : string) : world :=
  match process_file f dirpath w with
  | Ok w' => w'
  | Raise _ => w
  end.

(** The main loop over what [os.walk("./")] yields: the directories with
    the names of their files. *)
Definition main (walk : list (string * list string)) (w : world) : world :=
  fold_left
    (fun w '(dirpath, fnames) =>
       fold_left (try_process_file dirpath) (List.filter is_candidate fnames) w)
    walk w.

(** ** Notions used in the statements

    The declarative readings the properties compare the program with.
    Those named [spec_...] follow the wording of the specification where
    the program differs from it. *)

(** "Duplicates removed, first occurrences kept": the head of the list
    stays where it is and its later copies go. *)
Fixpoint first_occurrences (l : list string) : list string :=
  match l with
  | [] => []
  | x :: l' => x :: filter (fun y => y <> x) (first_occurrences l')
  end.

(** What the fallback parse keeps of a paragraph: the trimmed text of a
    [p] element whose first child is a text node, when it is not empty. *)
Definition paragraph_author (tag : node) : option string :=
  if String.eqb (nodeName tag) "p" then
    match first_text tag with
    | Some text =>
        let data := Py.strip text in
        if Py.truthy data then Some data else None
    | None => None
    end
  else None.

Definition is_span (tag : node) : bool := String.eqb (nodeName tag) "span".

(** The elements after the first one that satisfies [p]. *)
Fixpoint after_first (p : node -> bool) (tags : list node) : list node :=
  match tags with
  | [] => []
  | tag :: tags' => if p tag then tags' else after_first p tags'
  end.

(** The elements before the first one that satisfies [p]. *)
Fixpoint before_first (p : node -> bool) (tags : list node) : list node :=
  match tags with
  | [] => []
  | tag :: tags' => if p tag then [] else tag :: before_first p tags'
  end.

(** The author section of a page: the elements between the first author
    heading and the next [span]. *)
Definition author_section (tags : list node) : list node :=
  before_first is_span (after_first is_author_tag tags).

(** The heading test as the specification words it: a [strong] element
    whose sole child is the text "Author" or "Authors". *)
Definition spec_is_author_tag (tag : node) : bool :=
  String.eqb (nodeName tag) "strong"
  && match childNodes tag with
     | [Text data] => bool_decide (data ∈ ["Author"; "Authors"])
     | _ => false
     end.

(** The fallback parse as the specification words it. *)
Definition spec_find_author (xmldoc : node) : list string :=
  omap paragraph_author
    (before_first is_span (after_first spec_is_author_tag (iterate_all_tags xmldoc))).

(** What a lookup of the tag [name] yields: the value of the first child of
    the first element of that name, [None] without such an element, such a
    child or such a value. *)
Definition tag_value (opf_xmldoc : node) (name : string) : option string :=
  match getElementsByTagName opf_xmldoc name with
  | n :: _ => firstChild n ≫= nodeValue
  | [] => None
  end.

(** The value when it holds text, [None] when it is missing or empty. *)
Definition text_of (v : option string) : option string :=
  match v with
  | Some s => if Py.truthy s then Some s else None
  | None => None
  end.

(** Title discovery as the specification words it: the trimmed text of
    [title], else of [dc:title], else null. *)
Definition spec_title (opf_xmldoc : node) : option string :=
  match text_of (tag_value opf_xmldoc "title") with
  | Some s => Some (Py.strip s)
  | None =>
      match text_of (tag_value opf_xmldoc "dc:title") with
      | Some s => Some (Py.strip s)
      | None => None
      end
  end.

(** The creator elements the package document supplies: those of the pass
    over [creator] when it finds values, those of the pass over
    [dc:creator] otherwise. *)
Definition creator_elements (opf_xmldoc : node) : list node :=
  if bool_decide (all_pass opf_xmldoc "creator" = [])
  then getElementsByTagName opf_xmldoc "dc:creator"
  else getElementsByTagName opf_xmldoc "creator".

(** An element whose text, its first child, is whitespace and nothing
    else. *)
Definition whitespace_element (el : node) : Prop :=
  exists text,
    firstChild el = Some (Text text) /\ Py.all_chars Py.isspace text = true.

Definition no_dot (d : ascii) : bool := negb (Ascii.eqb d ".").

(** The extension of a file name: the part from its last dot on, empty for
    a name without a dot. *)
Fixpoint original_extension (fname : string) : string :=
  match fname with
  | EmptyString => EmptyString
  | String c rest =>
      if negb (Py.all_chars no_dot rest)
      then original_extension rest
      else if Ascii.eqb c "." then fname else EmptyString
  end.

(** The name of a tag without the [dc:] prefix when the tag is [dc:title]
    or [dc:creator]. *)
Definition bare_name (tag : string) : string :=
  if String.eqb tag "dc:title" then "title"
  else if String.eqb tag "dc:creator" then "creator"
  else tag.

(** The document with every [dc:title] and [dc:creator] element under its
    bare name. *)
Fixpoint bare (n : node) : node :=
  match n with
  | Document cs => Document (List.map bare cs)
  | Element tag attrs cs => Element (bare_name tag) attrs (List.map bare cs)
  | _ => n
  end.

(** A package document that uses namespace-prefixed tags only: it has no
    bare [title] and no bare [creator] element. *)
Definition namespaced_tags_only (opf_xmldoc : node) : Prop :=
  getElementsByTagName opf_xmldoc "title" = []
  /\ getElementsByTagName opf_xmldoc "creator" = [].

(** A tree as the parser builds it: no [Document] node below the root, so
    that only elements have children. *)
Fixpoint no_nested_document (n : node) : bool :=
  let fix all (ns : list node) : bool :=
    match ns with
    | [] => true
    | c :: ns' =>
        match c with Document _ => false | _ => no_nested_document c end
        && all ns'
    end in
  match n with
  | Document cs | Element _ _ cs => all cs
  | _ => true
  end.

(** A word: not empty and without whitespace. *)
Definition is_word (w : string) : Prop :=
  w <> EmptyString /\ Py.all_chars (fun c => negb (Py.isspace c)) w = true.

(** The characters of a destination name: word characters, hyphens, dots
    and plain spaces. *)
Definition name_char (c : ascii) : bool :=
  Py.isword c || Ascii.eqb c "-" || Ascii.eqb c "." || Ascii.eqb c " ".

(** Not whitespace, or the plain space. *)
Definition plain_space (c : ascii) : bool :=
  negb (Py.isspace c) || Ascii.eqb c " ".

Definition no_slash (c : ascii) : bool := negb (Ascii.eqb c "/").

(** ** Example documents *)

Definition creator (name : string) : node := Element "creator" [] [Text name].

(** A package document with the creators Jane Doe, Jane Doe and John Roe. *)
Definition opf_jane_jane_john : node :=
  Document
    [Element "package" []
       [Element "metadata" []
          [creator "Jane Doe"; creator "Jane Doe"; creator "John Roe"]]].

(** [<strong>Author</strong><p>Jane Doe</p><span>inside</span>after] in the
    body of a page. *)
Definition author_page (inside after : list node) : node :=
  Document
    [Element "html" []
       [Element "body" []
          (Element "strong" [] [Text "Author"]
           :: Element "p" [] [Text "Jane Doe"]
           :: Element "span" [] inside
           :: after)]].

(** [<strong>Author<br/></strong><p>Jane Doe</p>]: the heading has a second
    child. *)
Definition author_page_br : node :=
  Document
    [Element "html" []
       [Element "strong" [] [Text "Author"; Element "br" [] []];
        Element "p" [] [Text "Jane Doe"]]].

(** [<package><metadata><title><!----></title></metadata></package>]: the
    first child of [title] is an empty comment. *)
Definition opf_empty_comment_title : node :=
  Document
    [Element "package" []
       [Element "metadata" [] [Element "title" [] [Comment EmptyString]]]].

(** A package document whose only creator is two spaces. *)
Definition opf_blank_creator : node :=
  Document
    [Element "package" [] [Element "metadata" [] [creator "  "]]].

(** The pointer file [META-INF/container.xml] that names [opf_path]. *)
Definition container_xml (opf_path : string) : content :=
  WellFormed
    (Document
       [Element "container" []
          [Element "rootfiles" []
             [Element "rootfile" [("full-path", opf_path)] []]]]).

(** An archive with a pointer file and the package document [opf]. *)
Definition epub (opf : node) : file :=
  Zip (<["META-INF/container.xml" := container_xml "content.opf"]>
         (<["content.opf" := WellFormed opf]> ∅)).

(** A package document with one [dc:title] and one [dc:creator]. *)
Definition opf_book (title author : string) : node :=
  Document
    [Element "package" []
       [Element "metadata" []
          [Element "dc:title" [] [Text title];
           Element "dc:creator" [] [Text author]]]].

(** A directory with one book under the name [fname]. *)
Definition shelf (fname : string) (opf : node) : world :=
  World (<[Py.path_join "./" fname := epub opf]> ∅) [].

(** A package document with a creator and no title. *)
Definition opf_untitled : node :=
  Document
    [Element "package" []
       [Element "metadata" [] [Element "dc:creator" [] [Text "Jane Doe"]]]].

(** A package document with a title and no creator. *)
Definition opf_anonymous : node :=
  Document
    [Element "package" []
       [Element "metadata" [] [Element "dc:title" [] [Text "Dune"]]]].

(** An archive without any member, so without pointer file. *)
Definition empty_archive : file := Zip ∅.

(** An archive whose pointer file names a package document that is not
    well-formed XML. *)
Definition broken_opf_archive : file :=
  Zip (<["META-INF/container.xml" := container_xml "content.opf"]>
         (<["content.opf" := Malformed]> ∅)).

(** An archive whose pointer file has no [rootfile] element. *)
Definition no_rootfile_archive : file :=
  Zip (<["META-INF/container.xml" :=
           WellFormed (Document [Element "container" [] []])]> ∅).

(** A package document with one bare [title] and one bare [creator]. *)
Definition opf_bare_book (title author : string) : node :=
  Document
    [Element "package" []
       [Element "metadata" []
          [Element "title" [] [Text title];
           Element "creator" [] [Text author]]]].

(** An archive with a pointer file, the package document [opf] and the
    authors' page [page]. *)
Definition epub_with_page (opf : node) (page : content) : file :=
  Zip (<["META-INF/container.xml" := container_xml "content.opf"]>
         (<["content.opf" := WellFormed opf]>
            (<["OEBPS/pr02.html" := page]> ∅))).

(** * Properties *)

(** ** Removing duplicate authors *)

Section Unique.

Implicit Types (l acc : list string) (a : string).

Lemma filter_not_elem_of_snoc acc a l :
  filter (fun y => y ∉ acc ++ [a]) l
  = filter (fun y => y ∉ acc) (filter (fun y => y <> a) l).
Proof.
  rewrite list_filter_filter. apply list_filter_iff. intros y.
  rewrite not_elem_of_app, list_elem_of_singleton. tauto.
Qed.

Lemma filter_not_elem_of_absorb acc a l :
  a ∈ acc ->
  filter (fun y => y ∉ acc) (filter (fun y => y <> a) l)
  = filter (fun y => y ∉ acc) l.
Proof.
  intros Ha. rewrite list_filter_filter. apply list_filter_iff. intros y.
  split; [tauto|]. intros Hy. split; [done|]. intros ->. contradiction.
Qed.

(** The loop adds to [unique_authors] the first occurrences it has not
    seen yet. *)
Lemma unique_loop_spec l acc :
  unique_loop l acc = acc ++ filter (fun y => y ∉ acc) (first_occurrences l).
Proof.
  revert acc. induction l as [|a l IH]; intros acc; simpl.
  - by rewrite app_nil_r.
  - case_bool_decide as Ha.
    + rewrite IH, filter_cons_False by tauto.
      by rewrite filter_not_elem_of_absorb.
    + rewrite IH, filter_cons_True by done.
      by rewrite filter_not_elem_of_snoc, <- app_assoc.
Qed.

Lemma unique_loop_first_occurrences l :
  unique_loop l [] = first_occurrences l.
Proof.
  rewrite unique_loop_spec. simpl.
  induction (first_occurrences l) as [|x k IH]; [done|].
  rewrite filter_cons_True by apply not_elem_of_nil. by rewrite IH.
Qed.

Lemma first_occurrences_elem_of l a : a ∈ first_occurrences l <-> a ∈ l.
Proof.
  induction l as [|x l IH]; simpl; [done|].
  rewrite !elem_of_cons, list_elem_of_filter, IH.
  destruct (decide (a = x)); tauto.
Qed.

Lemma first_occurrences_NoDup l : NoDup (first_occurrences l).
Proof.
  induction l as [|x l IH]; simpl; [constructor|].
  apply NoDup_cons. split.
  - rewrite list_elem_of_filter. tauto.
  - by apply NoDup_filter.
Qed.

Lemma unique_loop_app l k acc :
  unique_loop (l ++ k) acc = unique_loop k (unique_loop l acc).
Proof.
  revert acc. induction l as [|a l IH]; intros acc; simpl; [done|].
  case_bool_decide; apply IH.
Qed.

End Unique.

(** C3.  The authors [_discover_authors] returns are the collected authors
    with duplicates removed and first occurrences kept in place: no author
    occurs twice, every collected author occurs, and an author met again
    changes nothing while a new one goes to the end.  The creators Jane Doe,
    Jane Doe, John Roe give Jane Doe, John Roe. *)
Theorem discover_authors_first_occurrences :
  (forall opf_xmldoc authors_html,
     _discover_authors opf_xmldoc authors_html
     = (do authors <- collect_authors opf_xmldoc authors_html;
        Ok (first_occurrences authors)))
  /\ (forall authors, NoDup (unique_loop authors []))
  /\ (forall authors a, a ∈ unique_loop authors [] <-> a ∈ authors)
  /\ (forall authors a,
        unique_loop (authors ++ [a]) []
        = if decide (a ∈ authors) then unique_loop authors []
          else unique_loop authors [] ++ [a])
  /\ _discover_authors opf_jane_jane_john None = Ok ["Jane Doe"; "John Roe"].
Proof.
  split; [|split; [|split; [|split]]].
  - intros opf html. unfold _discover_authors.
    destruct (collect_authors opf html) as [authors|e]; simpl; [|done].
    by rewrite unique_loop_first_occurrences.
  - intros authors. rewrite unique_loop_first_occurrences.
    apply first_occurrences_NoDup.
  - intros authors a. rewrite unique_loop_first_occurrences.
    apply first_occurrences_elem_of.
  - intros authors a. rewrite unique_loop_app. simpl.
    assert (Hin : a ∈ unique_loop authors [] <-> a ∈ authors).
    { rewrite unique_loop_first_occurrences. apply first_occurrences_elem_of. }
    case_bool_decide; case_decide; tauto.
  - reflexivity.
Qed.

(** ** The fallback parse of the authors' page *)

Section FindAuthor.

Implicit Types (tag : node) (tags : list node) (authors : list string).

Lemma find_author_loop_found tags authors :
  find_author_loop tags true authors
  = authors ++ omap paragraph_author (before_first is_span tags).
Proof.
  revert authors. induction tags as [|tag tags IH]; intros authors; simpl.
  - by rewrite app_nil_r.
  - unfold is_span, paragraph_author.
    destruct (String.eqb (nodeName tag) "span") eqn:Hspan; simpl.
    { by rewrite app_nil_r. }
    destruct (String.eqb (nodeName tag) "p"); [|apply IH].
    destruct (first_text tag) as [text|]; [|apply IH].
    destruct (Py.truthy (Py.strip text)); [|apply IH].
    rewrite IH. by rewrite <- app_assoc.
Qed.

Lemma find_author_loop_not_found tags authors :
  find_author_loop tags false authors
  = authors ++ omap paragraph_author (author_section tags).
Proof.
  unfold author_section. induction tags as [|tag tags IH]; simpl.
  - by rewrite app_nil_r.
  - destruct (is_author_tag tag); [apply find_author_loop_found|apply IH].
Qed.

Lemma find_author_from_dom_section xmldoc :
  _find_author_from_dom xmldoc
  = omap paragraph_author (author_section (iterate_all_tags xmldoc)).
Proof. unfold _find_author_from_dom. by rewrite find_author_loop_not_found. Qed.

(** The generator yields an element, then what it yields below the
    element, then what it yields for the following siblings. *)
Lemma iterate_all_tags_cons n ns :
  iterate_all_tags (Document (n :: ns))
  = (if (nodeType n =? ELEMENT_NODE)%N then n :: iterate_all_tags n else [])
    ++ iterate_all_tags (Document ns).
Proof. simpl. by destruct (nodeType n =? ELEMENT_NODE)%N. Qed.

Lemma iterate_all_tags_element name attrs ns :
  iterate_all_tags (Element name attrs ns) = iterate_all_tags (Document ns).
Proof. reflexivity. Qed.

End FindAuthor.

Section FindAuthorSpec.

Lemma first_text_Some tag text :
  first_text tag = Some text
  <-> (exists rest, childNodes tag = Text text :: rest).
Proof.
  unfold first_text, firstChild. split.
  - destruct (childNodes tag) as [|child rest]; simpl; [done|].
    destruct child; simpl; try done. intros [= ->]. by exists rest.
  - intros [rest ->]. reflexivity.
Qed.

Lemma childNodes_cons tag child rest :
  childNodes tag = child :: rest ->
  tag = Document (child :: rest)
  \/ exists attrs, tag = Element (nodeName tag) attrs (child :: rest).
Proof.
  destruct tag; simpl; try done.
  - intros ->. by left.
  - intros ->. right. by eexists.
Qed.

(** The heading that opens the author section is a [strong] element whose
    first child is the text "Author" or "Authors". *)
Lemma is_author_tag_true tag :
  is_author_tag tag = true
  <-> exists attrs data rest,
        tag = Element "strong" attrs (Text data :: rest)
        /\ (data = "Author" \/ data = "Authors").
Proof.
  unfold is_author_tag. rewrite andb_true_iff, String.eqb_eq. split.
  - intros [Hname Htext].
    destruct (first_text tag) as [data|] eqn:Hfirst; [|done].
    apply first_text_Some in Hfirst as [rest Hrest].
    apply bool_decide_eq_true in Htext.
    rewrite !elem_of_cons in Htext.
    destruct (childNodes_cons _ _ _ Hrest) as [->|[attrs Htag]]; [done|].
    rewrite Hname in Htag. exists attrs, data, rest.
    split; [done|]. destruct Htext as [?|[?|Hnil]]; auto.
    by apply elem_of_nil in Hnil.
  - intros (attrs & data & rest & -> & Hdata). simpl. split; [done|].
    apply bool_decide_eq_true. rewrite !elem_of_cons. tauto.
Qed.

(** An author is kept for a [p] element whose first child is a text node
    with something else than whitespace: the text without the whitespace
    at its ends. *)
Lemma paragraph_author_Some tag a :
  paragraph_author tag = Some a
  <-> exists attrs text rest,
        tag = Element "p" attrs (Text text :: rest)
        /\ a = Py.strip text /\ a <> "".
Proof.
  unfold paragraph_author. split.
  - destruct (String.eqb (nodeName tag) "p") eqn:Hname; [|done].
    apply String.eqb_eq in Hname.
    destruct (first_text tag) as [text|] eqn:Hfirst; [|done].
    apply first_text_Some in Hfirst as [rest Hrest].
    destruct (Py.strip text) as [|c r] eqn:Hstrip; simpl; [done|].
    intros [= <-].
    destruct (childNodes_cons _ _ _ Hrest) as [->|[attrs Htag]]; [done|].
    rewrite Hname in Htag. exists attrs, text, rest.
    by rewrite Hstrip.
  - intros (attrs & text & rest & -> & -> & Hne). simpl.
    destruct (Py.strip text); [done|reflexivity].
Qed.

End FindAuthorSpec.

(** C1, amended.  The fallback parse reads the elements of the page in
    document order (an element, then the elements below it, then its
    following siblings) and returns the authors of the author section: the
    section opens after the first [strong] element whose first child is the
    text "Author" or "Authors" and closes at the next [span]; each [p] of
    the section whose first child is a text node gives its trimmed text when
    that is not empty.  For [<strong>Author</strong><p>Jane Doe</p><span>]
    the result is Jane Doe alone, whatever the [span] holds and whatever
    follows it. *)
Theorem find_author_from_dom_author_section :
  (forall xmldoc,
     _find_author_from_dom xmldoc
     = omap paragraph_author (author_section (iterate_all_tags xmldoc)))
  /\ (forall n ns,
        iterate_all_tags (Document (n :: ns))
        = (if (nodeType n =? ELEMENT_NODE)%N
           then n :: iterate_all_tags n else [])
          ++ iterate_all_tags (Document ns))
  /\ (forall name attrs ns,
        iterate_all_tags (Element name attrs ns) = iterate_all_tags (Document ns))
  /\ (forall tag,
        is_author_tag tag = true
        <-> exists attrs data rest,
              tag = Element "strong" attrs (Text data :: rest)
              /\ (data = "Author" \/ data = "Authors"))
  /\ (forall tag a,
        paragraph_author tag = Some a
        <-> exists attrs text rest,
              tag = Element "p" attrs (Text text :: rest)
              /\ a = Py.strip text /\ a <> "")
  /\ (forall inside after,
        _find_author_from_dom (author_page inside after) = ["Jane Doe"]).
Proof.
  split; [apply find_author_from_dom_section|].
  split; [apply iterate_all_tags_cons|].
  split; [apply iterate_all_tags_element|].
  split; [apply is_author_tag_true|].
  split; [apply paragraph_author_Some|].
  intros inside after. rewrite find_author_from_dom_section. reflexivity.
Qed.

(** C1 as stated fails: a heading with a second child still opens the
    author section, which a sole-child test would not let it do. *)
Lemma sole_child_heading_counterexample :
  _find_author_from_dom author_page_br = ["Jane Doe"]
  /\ spec_find_author author_page_br = []
  /\ _find_author_from_dom author_page_br <> spec_find_author author_page_br.
Proof. split; [reflexivity|]. split; [reflexivity|discriminate]. Qed.

(** ** Trimming *)

Section Strip.

Implicit Types (s l r : string) (c : ascii).

Lemma lstrip_all_space s : Py.all_chars Py.isspace s = true -> Py.lstrip s = "".
Proof.
  induction s as [|c s IH]; simpl; [done|].
  rewrite andb_true_iff. intros [-> Hs]. auto.
Qed.

Lemma strip_all_space s : Py.all_chars Py.isspace s = true -> Py.strip s = "".
Proof. intros Hs. unfold Py.strip. by rewrite lstrip_all_space. Qed.

Lemma lstrip_leading s : Py.leading_space (Py.lstrip s) = false.
Proof.
  induction s as [|c s IH]; simpl; [done|].
  destruct (Py.isspace c) eqn:Hc; [done|]. simpl. by rewrite Hc.
Qed.

Lemma rstrip_trailing s : Py.trailing_space (Py.rstrip s) = false.
Proof.
  induction s as [|c s IH]; simpl; [done|].
  destruct (Py.rstrip s) as [|c' r] eqn:Hr.
  - destruct (Py.isspace c) eqn:Hc; simpl; [done|]. by rewrite Hc.
  - exact IH.
Qed.

Lemma rstrip_leading s :
  Py.leading_space s = false -> Py.leading_space (Py.rstrip s) = false.
Proof.
  destruct s as [|c s]; simpl; [done|]. intros Hc.
  destruct (Py.rstrip s); simpl; by rewrite ?Hc.
Qed.

(** A trimmed string neither begins nor ends with whitespace. *)
Lemma strip_trimmed s :
  Py.leading_space (Py.strip s) = false /\ Py.trailing_space (Py.strip s) = false.
Proof.
  unfold Py.strip. split.
  - apply rstrip_leading, lstrip_leading.
  - apply rstrip_trailing.
Qed.

Lemma app_String c s r : String c s +:+ r = String c (s +:+ r).
Proof. reflexivity. Qed.

Lemma app_empty r : "" +:+ r = r.
Proof. reflexivity. Qed.

Lemma lstrip_split s :
  exists l, s = l +:+ Py.lstrip s /\ Py.all_chars Py.isspace l = true.
Proof.
  induction s as [|c s (l & Hs & Hl)]; simpl.
  - by exists "".
  - destruct (Py.isspace c) eqn:Hc.
    + exists (String c l). simpl. rewrite Hc, Hl, app_String. by rewrite <- Hs.
    + by exists "".
Qed.

Lemma rstrip_split s :
  exists r, s = Py.rstrip s +:+ r /\ Py.all_chars Py.isspace r = true.
Proof.
  induction s as [|c s (r & Hs & Hr)]; simpl.
  - by exists "".
  - destruct (Py.rstrip s) as [|c' t] eqn:Ht.
    + rewrite app_empty in Hs. subst r. destruct (Py.isspace c) eqn:Hc.
      * exists (String c s). simpl. by rewrite Hc, Hr.
      * by exists s.
    + exists r. by rewrite app_String, <- Hs.
Qed.

(** Trimming takes whitespace away from the two ends and nothing else. *)
Lemma strip_split s :
  exists l r,
    s = l +:+ Py.strip s +:+ r
    /\ Py.all_chars Py.isspace l = true /\ Py.all_chars Py.isspace r = true.
Proof.
  destruct (lstrip_split s) as (l & Hs & Hl).
  destruct (rstrip_split (Py.lstrip s)) as (r & Hs' & Hr).
  exists l, r. unfold Py.strip. by rewrite <- Hs', <- Hs.
Qed.


End Strip.

(** ** Title discovery *)

Section Title.

Implicit Types (opf : node) (name : string) (value : option string).

(** A pass replaces [value] when the first element of the name has a first
    child, and leaves it otherwise. *)
Lemma first_pass_spec opf name value :
  first_pass opf name value
  = Ok (match getElementsByTagName opf name with
        | n :: _ =>
            match firstChild n with
            | Some child => nodeValue child
            | None => value
            end
        | [] => value
        end).
Proof.
  unfold first_pass.
  destruct (getElementsByTagName opf name) as [|n ns]; simpl; [done|].
  by destruct (firstChild n).
Qed.

Lemma first_pass_None opf name :
  first_pass opf name None = Ok (tag_value opf name).
Proof.
  rewrite first_pass_spec. unfold tag_value.
  destruct (getElementsByTagName opf name) as [|n ns]; [done|].
  by destruct (firstChild n).
Qed.

Lemma discover_title_spec opf :
  exists t,
    _discover_title opf = Ok t
    /\ match text_of (tag_value opf "title") with
       | Some s => t = Some (Py.strip s)
       | None =>
           match text_of (tag_value opf "dc:title") with
           | Some s => t = Some (Py.strip s)
           | None =>
               t = None
               \/ (t = Some ""
                   /\ (tag_value opf "title" = Some ""
                       \/ tag_value opf "dc:title" = Some ""))
           end
       end.
Proof.
  unfold _discover_title, __discover_dc.
  rewrite first_pass_None. simpl.
  destruct (tag_value opf "title") as [[|c s]|] eqn:Ht1; simpl.
  - (* an empty value: the second pass starts from it *)
    rewrite first_pass_spec. simpl. unfold tag_value.
    change ("dc:" +:+ "title") with "dc:title".
    destruct (getElementsByTagName opf "dc:title") as [|n ns]; simpl.
    { eexists. split; [done|]. auto. }
    destruct (firstChild n) as [child|]; simpl.
    + destruct (nodeValue child) as [[|c s]|]; simpl;
        eexists; (split; [done|]); auto.
    + eexists. split; [done|]. auto.
  - eexists. split; done.
  - rewrite first_pass_None. simpl.
    change ("dc:" +:+ "title") with "dc:title".
    destruct (tag_value opf "dc:title") as [[|c s]|]; simpl;
      eexists; (split; [done|]); auto.
Qed.

End Title.

(** C2, amended.  Title discovery always returns.  When the first [title]
    element has a first child with a non-empty value, the title is that
    value trimmed; otherwise the lookup is retried with [dc:title] in the
    same way; when neither lookup yields a non-empty value the result is
    null, or the empty string if one of the lookups found an empty value.
    A returned title neither begins nor ends with whitespace, and trimming
    only takes whitespace away from the two ends of the stored text. *)
Theorem discover_title_trimmed_first_text :
  (forall opf_xmldoc,
     exists t,
       _discover_title opf_xmldoc = Ok t
       /\ match text_of (tag_value opf_xmldoc "title") with
          | Some s => t = Some (Py.strip s)
          | None =>
              match text_of (tag_value opf_xmldoc "dc:title") with
              | Some s => t = Some (Py.strip s)
              | None =>
                  t = None
                  \/ (t = Some ""
                      /\ (tag_value opf_xmldoc "title" = Some ""
                          \/ tag_value opf_xmldoc "dc:title" = Some ""))
              end
          end
       /\ match t with
          | Some r => Py.leading_space r = false /\ Py.trailing_space r = false
          | None => True
          end)
  /\ (forall s,
        exists l r,
          s = l +:+ Py.strip s +:+ r
          /\ Py.all_chars Py.isspace l = true
          /\ Py.all_chars Py.isspace r = true).
Proof.
  split; [|apply strip_split].
  intros opf. destruct (discover_title_spec opf) as (t & Ht & Hcases).
  exists t. split; [done|]. split; [done|].
  destruct (text_of (tag_value opf "title")) as [s|].
  { subst t. apply strip_trimmed. }
  destruct (text_of (tag_value opf "dc:title")) as [s|].
  { subst t. apply strip_trimmed. }
  by destruct Hcases as [->|[-> _]].
Qed.

(** C2 as stated fails: a [title] whose first child is an empty comment
    yields no text, [dc:title] is missing, and the result is the empty
    string, not null. *)
Lemma empty_title_counterexample :
  _discover_title opf_empty_comment_title = Ok (Some "")
  /\ spec_title opf_empty_comment_title = None.
Proof. split; reflexivity. Qed.

(** ** Creators that hold only whitespace *)

Section BlankCreators.

Implicit Types (opf : node) (els : list node).

Lemma omap_cons {A B : Type} (f : A -> option B) (x : A) (l : list A) :
  omap f (x :: l)
  = match f x with Some y => y :: omap f l | None => omap f l end.
Proof. reflexivity. Qed.

Lemma all_pass_whitespace els :
  Forall whitespace_element els ->
  strip_all (omap (fun n => nodeValue <$> firstChild n) els)
  = Ok (replicate (length els) "").
Proof.
  induction 1 as [|el els (text & Hel & Htext) _ IH]; [done|].
  rewrite omap_cons, Hel. simpl.
  rewrite (strip_all_space _ Htext), IH. done.
Qed.

Lemma creator_elements_values opf :
  (if bool_decide (all_pass opf "creator" = [])
   then all_pass opf "dc:creator" else all_pass opf "creator")
  = omap (fun n => nodeValue <$> firstChild n) (creator_elements opf).
Proof. unfold creator_elements, all_pass. by case_bool_decide. Qed.

Lemma unique_loop_replicate n (a : string) :
  unique_loop (replicate n a) [a] = [a].
Proof.
  induction n as [|n IH]; simpl; [done|].
  rewrite bool_decide_eq_true_2; [exact IH|by apply list_elem_of_singleton].
Qed.

Lemma find_author_from_dom_nonempty page :
  "" ∉ _find_author_from_dom page.
Proof.
  rewrite find_author_from_dom_section, list_elem_of_omap.
  intros (tag & _ & Htag).
  apply paragraph_author_Some in Htag as (_ & _ & _ & _ & _ & Hne). done.
Qed.

End BlankCreators.

(** C10.  When the creator elements of the package document hold only
    whitespace, [_discover_authors] returns the empty string as the one
    author, whatever the authors' page holds: the values are trimmed and
    kept, so the page is not read.  The fallback parse of a page never
    returns the empty string. *)
Theorem whitespace_creators_give_empty_author
    (opf_xmldoc : node) (authors_html : option node) (page : node) :
  creator_elements opf_xmldoc <> [] ->
  Forall whitespace_element (creator_elements opf_xmldoc) ->
  collect_authors opf_xmldoc authors_html
  = Ok (replicate (length (creator_elements opf_xmldoc)) "")
  /\ _discover_authors opf_xmldoc authors_html = Ok [""]
  /\ "" ∉ _find_author_from_dom page.
Proof.
  intros Hne Hall.
  assert (Hcollect : collect_authors opf_xmldoc authors_html
                     = Ok (replicate (length (creator_elements opf_xmldoc)) "")).
  { unfold collect_authors, __discover_dc. simpl.
    change ("dc:" +:+ "creator") with "dc:creator".
    rewrite creator_elements_values, (all_pass_whitespace _ Hall). simpl.
    destruct (creator_elements opf_xmldoc); [done|]. reflexivity. }
  split; [done|]. split; [|apply find_author_from_dom_nonempty].
  unfold _discover_authors. rewrite Hcollect. simpl.
  destruct (creator_elements opf_xmldoc) as [|el els]; [done|]. simpl.
  by rewrite unique_loop_replicate.
Qed.

(** A package document with a creator of two spaces, read with an authors'
    page that does name an author. *)
Lemma whitespace_creators_witness :
  _find_author_from_dom (author_page [] []) = ["Jane Doe"]
  /\ collect_authors opf_blank_creator (Some (author_page [] [])) = Ok [""]
  /\ _discover_authors opf_blank_creator (Some (author_page [] [])) = Ok [""]
  /\ "" ∉ _find_author_from_dom (author_page [] []).
Proof.
  split; [reflexivity|].
  apply (whitespace_creators_give_empty_author
           opf_blank_creator (Some (author_page [] [])) (author_page [] [])).
  - discriminate.
  - repeat constructor. exists "  ". split; reflexivity.
Defined.

(** ** The destination name *)

Section Sanitize.

Implicit Types (s t : string) (c : ascii) (n : nat).

Lemma length_app s t :
  String.length (s +:+ t) = String.length s + String.length t.
Proof. induction s as [|c s IH]; simpl; [done|]. by rewrite IH. Qed.

Lemma slice_to_short n s : String.length s <= n -> Py.slice_to n s = s.
Proof.
  unfold Py.slice_to. revert n. induction s as [|c s IH]; intros [|n] Hn;
    simpl in *; try done; try lia.
  rewrite IH by lia. done.
Qed.

Lemma slice_to_length n s : String.length (Py.slice_to n s) <= n.
Proof.
  unfold Py.slice_to. revert n. induction s as [|c s IH]; intros [|n];
    simpl; try lia.
  specialize (IH n). lia.
Qed.

Lemma slice_to_prefix n s : exists rest, s = Py.slice_to n s +:+ rest.
Proof.
  unfold Py.slice_to. revert n. induction s as [|c s IH]; intros [|n]; simpl.
  - by exists "".
  - by exists "".
  - by exists (String c s).
  - destruct (IH n) as [rest Hrest]. exists rest.
    rewrite app_String. by rewrite <- Hrest.
Qed.

(** The name is cut to 254 characters before [.epub] is added. *)
Lemma destname_of_slice title author :
  destname_of title author
  = Py.slice_to 254
      (clean_fname (Py.format_value title +:+ " - " +:+ author))
    +:+ ".epub".
Proof.
  unfold destname_of.
  destruct (Nat.ltb_spec 254
              (String.length
                 (clean_fname (Py.format_value title +:+ " - " +:+ author))))
    as [Hlong|Hshort]; [done|].
  by rewrite slice_to_short.
Qed.

Lemma sub_spaces_from_true s :
  Py.sub_spaces_from true s = Py.sub_spaces_from false (Py.lstrip s).
Proof.
  induction s as [|c s IH]; simpl; [done|].
  destruct (Py.isspace c) eqn:Hc; [done|]. simpl. by rewrite Hc.
Qed.

(** Each maximal run of whitespace becomes one space; the other characters
    stay. *)
Lemma sub_spaces_cons c s :
  Py.sub_spaces (String c s)
  = if Py.isspace c then String " " (Py.sub_spaces (Py.lstrip s))
    else String c (Py.sub_spaces s).
Proof.
  unfold Py.sub_spaces. simpl.
  destruct (Py.isspace c); [|done]. by rewrite sub_spaces_from_true.
Qed.

Lemma unwanted_false c :
  Py.unwanted c = false
  <-> c = "-"%char \/ Py.isword c = true \/ c = "."%char \/ Py.isspace c = true.
Proof.
  unfold Py.unwanted.
  rewrite negb_false_iff, !orb_true_iff, !Ascii.eqb_eq. tauto.
Qed.

(** What is left has only wanted characters. *)
Lemma sub_unwanted_wanted s :
  Py.all_chars (fun c => negb (Py.unwanted c)) (Py.sub_unwanted s) = true.
Proof.
  induction s as [|c s IH]; simpl; [done|].
  destruct (Py.unwanted c) eqn:Hc; simpl; [done|]. by rewrite Hc.
Qed.

(** The wanted characters are all kept, in their order. *)
Lemma sub_unwanted_filter s :
  list_ascii_of_string (Py.sub_unwanted s)
  = List.filter (fun c => negb (Py.unwanted c)) (list_ascii_of_string s).
Proof.
  induction s as [|c s IH]; simpl; [done|].
  destruct (Py.unwanted c); simpl; by rewrite IH.
Qed.

End Sanitize.

(** ** The extension of a candidate *)

Section Extension.

Implicit Types (s t pre suffix : string) (c : ascii).

Lemma endswith_unfold s suffix :
  Py.endswith s suffix
  = String.eqb s suffix
    || match s with
       | EmptyString => false
       | String _ s' => Py.endswith s' suffix
       end.
Proof. by destruct s. Qed.

Lemma endswith_app pre suffix : Py.endswith (pre +:+ suffix) suffix = true.
Proof.
  induction pre as [|c pre IH]; rewrite endswith_unfold.
  - by rewrite app_empty, String.eqb_refl.
  - rewrite app_String, IH. apply orb_true_r.
Qed.

Lemma endswith_split s suffix :
  Py.endswith s suffix = true -> exists pre, s = pre +:+ suffix.
Proof.
  induction s as [|c s IH]; rewrite endswith_unfold, orb_true_iff;
    intros [Heq|Hrest].
  - apply String.eqb_eq in Heq. by exists "".
  - done.
  - apply String.eqb_eq in Heq. by exists "".
  - destruct (IH Hrest) as [pre ->]. by exists (String c pre).
Qed.

Lemma all_chars_app (p : ascii -> bool) s t :
  Py.all_chars p (s +:+ t) = Py.all_chars p s && Py.all_chars p t.
Proof.
  induction s as [|c s IH]; [done|].
  rewrite app_String. simpl. by rewrite IH, andb_assoc.
Qed.

Lemma lower_char_dot c : Ascii.eqb (Py.lower_char c) "." = Ascii.eqb c ".".
Proof. by destruct c as [[] [] [] [] [] [] [] []]. Qed.

Lemma lower_no_dot s :
  Py.all_chars no_dot (Py.lower s) = Py.all_chars no_dot s.
Proof.
  induction s as [|c s IH]; simpl; [done|].
  unfold no_dot at 1 3. by rewrite lower_char_dot, IH.
Qed.

Lemma original_extension_unfold c s :
  original_extension (String c s)
  = if negb (Py.all_chars no_dot s) then original_extension s
    else if Ascii.eqb c "." then String c s else "".
Proof. reflexivity. Qed.

Lemma original_extension_lower s :
  original_extension (Py.lower s) = Py.lower (original_extension s).
Proof.
  induction s as [|c s IH]; [done|].
  change (Py.lower (String c s)) with (String (Py.lower_char c) (Py.lower s)).
  rewrite !original_extension_unfold, lower_no_dot, lower_char_dot, IH.
  destruct (Py.all_chars no_dot s); simpl; [|done].
  by destruct (Ascii.eqb c ".").
Qed.

Lemma original_extension_suffix s :
  exists pre, s = pre +:+ original_extension s.
Proof.
  induction s as [|c s [pre Hpre]]; [by exists ""|].
  rewrite original_extension_unfold.
  destruct (Py.all_chars no_dot s); simpl.
  - destruct (Ascii.eqb c "."); [by exists ""|].
    exists (String c s). rewrite app_String. f_equal.
    clear. induction s as [|d s IH]; [done|]. by rewrite app_String, <- IH.
  - exists (String c pre). by rewrite app_String, <- Hpre.
Qed.

Lemma original_extension_epub pre :
  original_extension (pre +:+ ".epub") = ".epub".
Proof.
  induction pre as [|c pre IH]; [done|].
  rewrite app_String, original_extension_unfold, all_chars_app.
  change (Py.all_chars no_dot ".epub") with false.
  by rewrite andb_false_r.
Qed.

Lemma endswith_epub s :
  Py.endswith s ".epub" = true <-> original_extension s = ".epub".
Proof.
  split.
  - intros Hs. apply endswith_split in Hs as [pre ->].
    apply original_extension_epub.
  - intros Hs. destruct (original_extension_suffix s) as [pre Hpre].
    rewrite Hs in Hpre. rewrite Hpre. apply endswith_app.
Qed.

(** A candidate is a file whose extension is [.epub] in some mix of upper
    and lower case. *)
Lemma is_candidate_extension fname :
  is_candidate fname = true <-> Py.lower (original_extension fname) = ".epub".
Proof.
  unfold is_candidate. by rewrite endswith_epub, original_extension_lower.
Qed.

End Extension.

(** C4, amended.  The destination name is made from ["{title} - {author}"]
    in this order: each run of whitespace becomes one space, the ends are
    trimmed, every character that is not a hyphen, a word character, a dot
    or whitespace is removed (letters beyond ASCII are word characters),
    the result is cut to 254 characters, and the fixed extension [.epub] is
    added.  That extension is the original one in lower case: the
    candidates are the files whose extension, in lower case, is [.epub]. *)
Theorem destname_of_sanitized :
  (forall title author,
     destname_of title author
     = Py.slice_to 254
         (Py.sub_unwanted
            (Py.strip
               (Py.sub_spaces (Py.format_value title +:+ " - " +:+ author))))
       +:+ ".epub")
  /\ (forall c s,
        Py.sub_spaces (String c s)
        = if Py.isspace c then String " " (Py.sub_spaces (Py.lstrip s))
          else String c (Py.sub_spaces s))
  /\ (forall s,
        Py.leading_space (Py.strip s) = false
        /\ Py.trailing_space (Py.strip s) = false
        /\ exists l r,
             s = l +:+ Py.strip s +:+ r
             /\ Py.all_chars Py.isspace l = true
             /\ Py.all_chars Py.isspace r = true)
  /\ (forall s,
        list_ascii_of_string (Py.sub_unwanted s)
        = List.filter (fun c => negb (Py.unwanted c)) (list_ascii_of_string s))
  /\ (forall s,
        Py.all_chars (fun c => negb (Py.unwanted c)) (clean_fname s) = true)
  /\ (forall c,
        Py.unwanted c = false
        <-> c = "-"%char \/ Py.isword c = true \/ c = "."%char
            \/ Py.isspace c = true)
  /\ (Py.isword (ascii_of_N 233) = true /\ Py.unwanted (ascii_of_N 215) = true)
  /\ (forall n s,
        String.length (Py.slice_to n s) <= n
        /\ exists rest, s = Py.slice_to n s +:+ rest)
  /\ (forall title author,
        String.length (destname_of title author) <= 259
        /\ Py.endswith (destname_of title author) ".epub" = true)
  /\ (forall fname,
        is_candidate fname = true
        <-> Py.lower (original_extension fname) = ".epub").
Proof.
  split; [apply destname_of_slice|].
  split; [apply sub_spaces_cons|].
  split; [intros s; destruct (strip_trimmed s); auto using strip_split|].
  split; [apply sub_unwanted_filter|].
  split; [intros s; apply sub_unwanted_wanted|].
  split; [apply unwanted_false|].
  split; [by split|].
  split; [intros n s; split; [apply slice_to_length|apply slice_to_prefix]|].
  split; [|apply is_candidate_extension].
  intros title author. rewrite destname_of_slice. split.
  - rewrite length_app.
    pose proof (slice_to_length 254
                  (clean_fname (Py.format_value title +:+ " - " +:+ author))).
    simpl. lia.
  - apply endswith_app.
Qed.

(** C4 as stated fails: [BOOK.EPUB] is a candidate with the extension
    [.EPUB], and its new name does not end with that extension. *)
Lemma upper_case_extension_counterexample :
  is_candidate "BOOK.EPUB" = true
  /\ original_extension "BOOK.EPUB" = ".EPUB"
  /\ stdout <$> process_file "BOOK.EPUB" "./"
                  (shelf "BOOK.EPUB" (opf_book "Dune" "Frank Herbert"))
     = Ok [report "BOOK.EPUB" "Dune - Frank Herbert.epub"]
  /\ Py.endswith "Dune - Frank Herbert.epub" (original_extension "BOOK.EPUB")
     = false.
Proof. repeat split. Qed.

(** C5, amended.  For the title [The Great: Escape?!] and the author
    [A. B. Smith] the destination name is
    [The Great Escape - A. B. Smith.epub]: the colon, the question mark and
    the bang go, the hyphen between title and author, the dots and the
    spaces stay. *)
Theorem destname_of_great_escape :
  destname_of (Some "The Great: Escape?!") "A. B. Smith"
  = "The Great Escape - A. B. Smith.epub"
  /\ stdout <$> process_file "book.epub" "./"
                  (shelf "book.epub" (opf_book "The Great: Escape?!" "A. B. Smith"))
     = Ok [report "book.epub" "The Great Escape - A. B. Smith.epub"].
Proof. split; reflexivity. Qed.

(** C5 as stated fails: the name is not [The Great Escape A.B. Smith.epub]. *)
Lemma great_escape_counterexample :
  destname_of (Some "The Great: Escape?!") "A. B. Smith"
  <> "The Great Escape A.B. Smith.epub".
Proof. discriminate. Qed.

(** ** Failures of the extraction *)

Section Failures.

Implicit Types (fs : gmap string file) (zf : gmap string content)
  (filepath dirpath fname : string) (w : world) (e : exn).

(** How the first [try] block ends, case by case. *)
Lemma read_opf_cases zf :
  read_opf zf
  = match zf !! "META-INF/container.xml" with
    | None => Raise KeyError
    | Some Malformed => Raise ExpatError
    | Some (WellFormed container_xmldoc) =>
        match getElementsByTagName container_xmldoc "rootfile" with
        | [] => Raise IndexError
        | rootfile :: _ =>
            match attribute (attributes rootfile) "full-path" with
            | Raise _ => Raise KeyError
            | Ok opf_filepath =>
                match zf !! opf_filepath with
                | None => Raise KeyError
                | Some Malformed => Raise ExpatError
                | Some (WellFormed opf_xmldoc) => Ok opf_xmldoc
                end
            end
        end
    end.
Proof.
  unfold read_opf, zf_read.
  destruct (zf !! "META-INF/container.xml") as [[doc|]|]; simpl; try done.
  destruct (getElementsByTagName doc "rootfile") as [|rootfile ?]; simpl;
    [done|].
  assert (Hattr : forall attrs,
            match attribute attrs "full-path" with
            | Raise e => e = KeyError
            | Ok _ => True
            end).
  { induction attrs as [|[k v] attrs IH]; simpl; [done|].
    by destruct (String.eqb k "full-path"). }
  specialize (Hattr (attributes rootfile)).
  destruct (attribute (attributes rootfile) "full-path") as [path|e]; simpl.
  - by destruct (zf !! path) as [[opf|]|].
  - by subst e.
Qed.

Lemma read_opf_IndexError zf :
  read_opf zf = Raise IndexError
  <-> exists container_xmldoc,
        zf !! "META-INF/container.xml" = Some (WellFormed container_xmldoc)
        /\ getElementsByTagName container_xmldoc "rootfile" = [].
Proof.
  rewrite read_opf_cases. split.
  - destruct (zf !! "META-INF/container.xml") as [[doc|]|]; try done.
    destruct (getElementsByTagName doc "rootfile") as [|rootfile ?] eqn:Hroot.
    { intros _. by exists doc. }
    destruct (attribute (attributes rootfile) "full-path") as [path|e];
      [|done].
    by destruct (zf !! path) as [[opf|]|].
  - intros (doc & -> & ->). done.
Qed.

(** After an archive is open, only a missing [rootfile] element is
    reported as the program's own exception; the other failures of the
    first [try] block pass as they are. *)
Lemma get_epub_metadata_read_opf fs filepath zf e :
  fs !! filepath = Some (Zip zf) ->
  read_opf zf = Raise e ->
  get_epub_metadata fs filepath
  = Raise (if is_IndexError e
           then Exception ("Cannot parse raw metadata from "
                           +:+ Py.basename filepath)
           else e).
Proof.
  intros Hzip Hopf. unfold get_epub_metadata. rewrite Hzip, Hopf. simpl.
  by destruct (is_IndexError e).
Qed.

Lemma read_opf_raises zf :
  match read_opf zf with
  | Ok _ => True
  | Raise e => e = KeyError \/ e = ExpatError \/ e = IndexError
  end.
Proof.
  rewrite read_opf_cases.
  destruct (zf !! "META-INF/container.xml") as [[doc|]|]; auto.
  destruct (getElementsByTagName doc "rootfile") as [|rootfile ?]; auto.
  destruct (attribute (attributes rootfile) "full-path") as [path|e]; auto.
  destruct (zf !! path) as [[opf|]|]; auto.
Qed.

Lemma read_authors_html_raises zf :
  match read_authors_html zf with
  | Ok _ => True
  | Raise e => e = ExpatError
  end.
Proof.
  unfold read_authors_html, zf_read.
  by destruct (zf !! "OEBPS/pr02.html") as [[doc|]|].
Qed.

Lemma strip_all_raises (value : list (option string)) :
  match strip_all value with
  | Ok _ => True
  | Raise e => e = AttributeError
  end.
Proof.
  induction value as [|[v|] value IH]; simpl; [done| |done].
  by destruct (strip_all value).
Qed.

Lemma discover_authors_raises (opf : node) (html : option node) :
  match _discover_authors opf html with
  | Ok _ => True
  | Raise e => e = AttributeError
  end.
Proof.
  unfold _discover_authors, collect_authors, __discover_dc. simpl.
  match goal with |- context [strip_all ?v] =>
    pose proof (strip_all_raises v) as Hv; destruct (strip_all v) as [l|e]
  end; simpl; [|done].
  by destruct l, html.
Qed.

Lemma discover_title_total (opf : node) : exists t, _discover_title opf = Ok t.
Proof. destruct (discover_title_spec opf) as (t & Ht & _). by exists t. Qed.

(** The exceptions of [get_epub_metadata] on an archive. *)
Lemma get_epub_metadata_raises fs filepath zf :
  fs !! filepath = Some (Zip zf) ->
  match get_epub_metadata fs filepath with
  | Ok _ => True
  | Raise e =>
      e = KeyError \/ e = ExpatError \/ e = AttributeError
      \/ (e = Exception ("Cannot parse raw metadata from "
                         +:+ Py.basename filepath)
          /\ read_opf zf = Raise IndexError)
  end.
Proof.
  intros Hzip. unfold get_epub_metadata. rewrite Hzip.
  pose proof (read_opf_raises zf) as Hopf.
  destruct (read_opf zf) as [opf|e]; simpl.
  - pose proof (read_authors_html_raises zf) as Hhtml.
    destruct (read_authors_html zf) as [html|e]; simpl; [|auto].
    destruct (discover_title_total opf) as [t ->]. simpl.
    pose proof (discover_authors_raises opf html) as Hauthors.
    destruct (_discover_authors opf html) as [a|e]; simpl; auto.
  - destruct Hopf as [->|[->| ->]]; simpl; auto.
Qed.

Lemma get_epub_metadata_unknown fs filepath :
  get_epub_metadata fs filepath
  = Raise (Exception ("Unknown file " +:+ Py.basename filepath))
  <-> is_zipfile fs filepath = false.
Proof.
  unfold is_zipfile.
  destruct (fs !! filepath) as [[zf|]|] eqn:Hfile;
    [|by unfold get_epub_metadata; rewrite Hfile..].
  split; [|done]. intros Hraise.
  pose proof (get_epub_metadata_raises fs filepath zf Hfile) as Hcases.
  rewrite Hraise in Hcases.
  by destruct Hcases as [?|[?|[?|[? _]]]].
Qed.

Lemma get_epub_metadata_cannot_parse fs filepath :
  get_epub_metadata fs filepath
  = Raise (Exception ("Cannot parse raw metadata from "
                      +:+ Py.basename filepath))
  <-> exists zf container_xmldoc,
        fs !! filepath = Some (Zip zf)
        /\ zf !! "META-INF/container.xml" = Some (WellFormed container_xmldoc)
        /\ getElementsByTagName container_xmldoc "rootfile" = [].
Proof.
  split.
  - intros Hraise.
    destruct (fs !! filepath) as [[zf|]|] eqn:Hfile;
      [|by unfold get_epub_metadata in Hraise; rewrite Hfile in Hraise..].
    pose proof (get_epub_metadata_raises fs filepath zf Hfile) as Hcases.
    rewrite Hraise in Hcases.
    destruct Hcases as [?|[?|[?|[_ Hopf]]]]; try done.
    apply read_opf_IndexError in Hopf as (doc & ? & ?). by exists zf, doc.
  - intros (zf & doc & Hfile & Hdoc & Hroot).
    rewrite (get_epub_metadata_read_opf fs filepath zf IndexError Hfile);
      [done|].
    apply read_opf_IndexError. by exists doc.
Qed.

(** A failed extraction fails [process_file] the same way. *)
Lemma process_file_raises fname dirpath w e :
  get_epub_metadata (files w) (Py.path_join dirpath fname) = Raise e ->
  process_file fname dirpath w = Raise e.
Proof. intros Hmeta. unfold process_file. by rewrite Hmeta. Qed.

(** A file whose processing fails is passed over. *)
Lemma try_process_file_raises fname dirpath w e :
  process_file fname dirpath w = Raise e ->
  try_process_file dirpath w fname = w.
Proof. intros Hraise. unfold try_process_file. by rewrite Hraise. Qed.

Lemma main_skips fname fnames dirpath w e :
  process_file fname dirpath w = Raise e ->
  main [(dirpath, fname :: fnames)] w = main [(dirpath, fnames)] w.
Proof.
  intros Hraise. unfold main. simpl.
  destruct (is_candidate fname); [|done]. simpl.
  by rewrite (try_process_file_raises _ _ _ _ Hraise).
Qed.

End Failures.

(** C6, amended.  [get_epub_metadata] raises its [Unknown file] exception
    exactly when the file is not an archive, and its [Cannot parse raw
    metadata] exception exactly when the archive has a well-formed pointer
    file without [rootfile] element.  A missing pointer file, a missing
    [full-path] attribute and a missing package document raise [KeyError];
    a pointer file or a package document that is not well-formed raises
    [ExpatError].  Whatever the exception, [process_file] raises it too,
    the main loop passes the file over, changes nothing and goes on with
    the other files. *)
Theorem get_epub_metadata_failures :
  (forall fs filepath,
     get_epub_metadata fs filepath
     = Raise (Exception ("Unknown file " +:+ Py.basename filepath))
     <-> is_zipfile fs filepath = false)
  /\ (forall fs filepath,
        get_epub_metadata fs filepath
        = Raise (Exception ("Cannot parse raw metadata from "
                            +:+ Py.basename filepath))
        <-> exists zf container_xmldoc,
              fs !! filepath = Some (Zip zf)
              /\ zf !! "META-INF/container.xml"
                 = Some (WellFormed container_xmldoc)
              /\ getElementsByTagName container_xmldoc "rootfile" = [])
  /\ (forall zf,
        read_opf zf
        = match zf !! "META-INF/container.xml" with
          | None => Raise KeyError
          | Some Malformed => Raise ExpatError
          | Some (WellFormed container_xmldoc) =>
              match getElementsByTagName container_xmldoc "rootfile" with
              | [] => Raise IndexError
              | rootfile :: _ =>
                  match attribute (attributes rootfile) "full-path" with
                  | Raise _ => Raise KeyError
                  | Ok opf_filepath =>
                      match zf !! opf_filepath with
                      | None => Raise KeyError
                      | Some Malformed => Raise ExpatError
                      | Some (WellFormed opf_xmldoc) => Ok opf_xmldoc
                      end
                  end
              end
          end)
  /\ (forall fs filepath zf e,
        fs !! filepath = Some (Zip zf) ->
        read_opf zf = Raise e ->
        get_epub_metadata fs filepath
        = Raise (if is_IndexError e
                 then Exception ("Cannot parse raw metadata from "
                                 +:+ Py.basename filepath)
                 else e))
  /\ (forall fname fnames dirpath w e,
        get_epub_metadata (files w) (Py.path_join dirpath fname) = Raise e ->
        process_file fname dirpath w = Raise e
        /\ try_process_file dirpath w fname = w
        /\ main [(dirpath, fname :: fnames)] w = main [(dirpath, fnames)] w).
Proof.
  split; [apply get_epub_metadata_unknown|].
  split; [apply get_epub_metadata_cannot_parse|].
  split; [apply read_opf_cases|].
  split; [apply get_epub_metadata_read_opf|].
  intros fname fnames dirpath w e Hmeta.
  pose proof (process_file_raises _ _ _ _ Hmeta) as Hraise.
  eauto using try_process_file_raises, main_skips.
Qed.

(** An archive without pointer file beside a good book: the first is
    passed over with its [KeyError], the second is renamed. *)
Lemma get_epub_metadata_failures_witness :
  let w := World (<["./a.epub" := empty_archive]>
                    (files (shelf "b.epub" (opf_book "Dune" "Frank Herbert"))))
                 [] in
  get_epub_metadata (files w) "./a.epub" = Raise KeyError
  /\ process_file "a.epub" "./" w = Raise KeyError
  /\ try_process_file "./" w "a.epub" = w
  /\ main [("./", ["a.epub"; "b.epub"])] w = main [("./", ["b.epub"])] w
  /\ stdout (main [("./", ["a.epub"; "b.epub"])] w)
     = [report "b.epub" "Dune - Frank Herbert.epub"].
Proof.
  intros w.
  assert (Hmeta : get_epub_metadata (files w) (Py.path_join "./" "a.epub")
                  = Raise KeyError) by reflexivity.
  pose proof (proj2 (proj2 (proj2 (proj2 get_epub_metadata_failures)))
                "a.epub" ["b.epub"] "./" w KeyError Hmeta)
    as (Hprocess & Htry & Hmain).
  split; [exact Hmeta|]. split; [exact Hprocess|]. split; [exact Htry|].
  split; [exact Hmain|]. rewrite Hmain. reflexivity.
Defined.

(** C6 as stated fails: an archive without pointer file, and an archive
    whose package document is not well-formed, fail with [KeyError] and
    [ExpatError], not with the [Cannot parse raw metadata] exception. *)
Lemma missing_pointer_file_counterexample :
  is_zipfile {["./a.epub" := empty_archive]} "./a.epub" = true
  /\ get_epub_metadata {["./a.epub" := empty_archive]} "./a.epub"
     = Raise KeyError
  /\ get_epub_metadata {["./a.epub" := broken_opf_archive]} "./a.epub"
     = Raise ExpatError
  /\ get_epub_metadata {["./a.epub" := no_rootfile_archive]} "./a.epub"
     = Raise (Exception "Cannot parse raw metadata from a.epub")
  /\ KeyError <> Exception "Cannot parse raw metadata from a.epub"
  /\ ExpatError <> Exception "Cannot parse raw metadata from a.epub".
Proof. repeat split; discriminate. Qed.

(** ** Skipping and renaming *)

(** C7 fails on the code.  A book without title and with the creator Jane
    Doe is not skipped: its title is [None] and the file is renamed to
    [None - Jane Doe.epub].  A book without creator is skipped, by the
    [IndexError] of [authors[0]]. *)
Theorem untitled_book_is_renamed :
  get_epub_metadata (files (shelf "book.epub" opf_untitled)) "./book.epub"
  = Ok (Metadata None ["Jane Doe"])
  /\ process_file "book.epub" "./" (shelf "book.epub" opf_untitled)
     = Ok (World {["./None - Jane Doe.epub" := epub opf_untitled]}
             [report "book.epub" "None - Jane Doe.epub"])
  /\ get_epub_metadata (files (shelf "book.epub" opf_anonymous)) "./book.epub"
     = Ok (Metadata (Some "Dune") [])
  /\ process_file "book.epub" "./" (shelf "book.epub" opf_anonymous)
     = Raise IndexError
  /\ main [("./", ["book.epub"])] (shelf "book.epub" opf_anonymous)
     = shelf "book.epub" opf_anonymous.
Proof. repeat split. Qed.

Section Canonical.

Implicit Types (fs : gmap string file) (filepath dirpath fname : string)
  (w : world) (meta : metadata).

Lemma get_epub_metadata_exists fs filepath meta :
  get_epub_metadata fs filepath = Ok meta -> path_exists fs filepath = true.
Proof.
  unfold get_epub_metadata, path_exists.
  destruct (fs !! filepath) as [[zf|]|]; [|done..].
  intros _. by apply bool_decide_eq_true.
Qed.

End Canonical.

(** C9.  When the destination name computed for a file is the name the
    file already has, the destination exists, since it is the file itself,
    so [process_file] renames nothing and prints nothing, and the main loop
    leaves the world as it is. *)
Theorem process_file_canonical_noop
    (fname dirpath : string) (w : world) (meta : metadata) (author : string) :
  get_epub_metadata (files w) (Py.path_join dirpath fname) = Ok meta ->
  index0 (authors meta) = Ok author ->
  destname_of (title meta) author = fname ->
  path_exists (files w)
    (Py.path_join dirpath (destname_of (title meta) author)) = true
  /\ process_file fname dirpath w = Ok w
  /\ try_process_file dirpath w fname = w.
Proof.
  intros Hmeta Hauthor Hname.
  assert (Hexists : path_exists (files w)
            (Py.path_join dirpath (destname_of (title meta) author)) = true).
  { rewrite Hname. by apply get_epub_metadata_exists with meta. }
  assert (Hprocess : process_file fname dirpath w = Ok w).
  { unfold process_file. rewrite Hmeta. simpl. rewrite Hauthor. simpl.
    by rewrite Hexists. }
  split; [done|]. split; [done|].
  unfold try_process_file. by rewrite Hprocess.
Qed.

(** The book Dune by Frank Herbert, already named
    [Dune - Frank Herbert.epub]. *)
Lemma process_file_canonical_witness :
  let w := shelf "Dune - Frank Herbert.epub" (opf_book "Dune" "Frank Herbert") in
  destname_of (Some "Dune") "Frank Herbert" = "Dune - Frank Herbert.epub"
  /\ path_exists (files w)
       (Py.path_join "./" (destname_of (Some "Dune") "Frank Herbert")) = true
  /\ process_file "Dune - Frank Herbert.epub" "./" w = Ok w
  /\ try_process_file "./" w "Dune - Frank Herbert.epub" = w.
Proof.
  intros w. split; [reflexivity|].
  apply (process_file_canonical_noop "Dune - Frank Herbert.epub" "./" w
           (Metadata (Some "Dune") ["Frank Herbert"]) "Frank Herbert");
    reflexivity.
Defined.

(** ** Bare and namespace-prefixed tags *)

Section Bare.

Implicit Types (n c : node) (ns cs : list node) (name tag : string).

(** Induction on a document: a property of the children passes to the
    node. *)
Lemma node_children_ind (P : node -> Prop) :
  (forall n, Forall P (childNodes n) -> P n) -> forall n, P n.
Proof.
  intros Hstep. fix IH 1. intros n. apply Hstep.
  destruct n as [cs|tag attrs cs| | | | |]; simpl; try constructor.
  - induction cs as [|c cs IHcs]; constructor; [apply IH|apply IHcs].
  - induction cs as [|c cs IHcs]; constructor; [apply IH|apply IHcs].
Qed.

Lemma getElementsByTagName_cons n ns name :
  getElementsByTagName (Document (n :: ns)) name
  = (if tag_matches name n then [n] else [])
    ++ getElementsByTagName n name
    ++ getElementsByTagName (Document ns) name.
Proof. reflexivity. Qed.

Lemma getElementsByTagName_children n name :
  getElementsByTagName n name
  = getElementsByTagName (Document (childNodes n)) name.
Proof. by destruct n. Qed.

Lemma bare_children n : childNodes (bare n) = List.map bare (childNodes n).
Proof. by destruct n. Qed.

Lemma bare_nodeValue n : nodeValue (bare n) = nodeValue n.
Proof. by destruct n. Qed.

Lemma bare_first_value n :
  nodeValue <$> firstChild (bare n) = nodeValue <$> firstChild n.
Proof.
  unfold firstChild. rewrite bare_children.
  destruct (childNodes n) as [|c cs]; simpl; [done|].
  by rewrite bare_nodeValue.
Qed.

(** In a document without bare elements, the elements that take the bare
    name are those that had the prefixed one. *)
Lemma tag_matches_bare n name :
  name = "title" \/ name = "creator" ->
  tag_matches name n = false ->
  tag_matches name (bare n) = tag_matches ("dc:" +:+ name) n
  /\ tag_matches ("dc:" +:+ name) (bare n) = false.
Proof.
  intros Hname.
  destruct n as [cs|tag attrs cs| | | | |];
    try (by destruct Hname as [->| ->]).
  unfold tag_matches. simpl. unfold bare_name.
  destruct (String.eqb_spec tag "dc:title") as [->|Htitle];
    [by destruct Hname as [->| ->]|].
  destruct (String.eqb_spec tag "dc:creator") as [->|Hcreator];
    [by destruct Hname as [->| ->]|].
  apply String.eqb_neq in Htitle, Hcreator. intros Hbare.
  destruct Hname as [->| ->]; simpl in *; rewrite Hbare.
  - change ("dc:" +:+ "title") with "dc:title". by rewrite Htitle.
  - change ("dc:" +:+ "creator") with "dc:creator". by rewrite Hcreator.
Qed.

Lemma getElementsByTagName_bare name :
  name = "title" \/ name = "creator" ->
  forall n,
    getElementsByTagName n name = [] ->
    getElementsByTagName (bare n) name
    = List.map bare (getElementsByTagName n ("dc:" +:+ name))
    /\ getElementsByTagName (bare n) ("dc:" +:+ name) = [].
Proof.
  intros Hname. induction n as [n IH] using node_children_ind.
  rewrite (getElementsByTagName_children n name),
    (getElementsByTagName_children n ("dc:" +:+ name)),
    (getElementsByTagName_children (bare n) name),
    (getElementsByTagName_children (bare n) ("dc:" +:+ name)),
    bare_children.
  induction IH as [|c cs Hc _ IHcs]; [done|].
  simpl List.map. rewrite !getElementsByTagName_cons.
  intros Hnil.
  apply app_eq_nil in Hnil as [Hmatch Hnil].
  apply app_eq_nil in Hnil as [Hbelow Hrest].
  assert (Hfalse : tag_matches name c = false).
  { by destruct (tag_matches name c). }
  destruct (tag_matches_bare c name Hname Hfalse) as [-> ->].
  destruct (Hc Hbelow) as [-> ->], (IHcs Hrest) as [-> ->].
  split; [|done].
  rewrite !List.map_app. by destruct (tag_matches ("dc:" +:+ name) c).
Qed.

Lemma omap_bare ns :
  omap (fun n => nodeValue <$> firstChild n) (List.map bare ns)
  = omap (fun n => nodeValue <$> firstChild n) ns.
Proof.
  induction ns as [|n ns IH]; [done|].
  simpl List.map. by rewrite !omap_cons, bare_first_value, IH.
Qed.

Lemma all_pass_bare opf name :
  name = "title" \/ name = "creator" ->
  getElementsByTagName opf name = [] ->
  all_pass (bare opf) name = all_pass opf ("dc:" +:+ name)
  /\ all_pass (bare opf) ("dc:" +:+ name) = []
  /\ all_pass opf name = [].
Proof.
  intros Hname Hnone. unfold all_pass.
  destruct (getElementsByTagName_bare name Hname opf Hnone) as [-> ->].
  by rewrite Hnone, omap_bare.
Qed.

Lemma tag_value_bare opf name :
  name = "title" \/ name = "creator" ->
  getElementsByTagName opf name = [] ->
  tag_value (bare opf) name = tag_value opf ("dc:" +:+ name)
  /\ tag_value opf name = None.
Proof.
  intros Hname Hnone. unfold tag_value.
  destruct (getElementsByTagName_bare name Hname opf Hnone) as [-> _].
  rewrite Hnone. split; [|done].
  destruct (getElementsByTagName opf ("dc:" +:+ name)) as [|n ns]; simpl;
    [done|].
  pose proof (bare_first_value n) as Hvalue.
  destruct (firstChild (bare n)), (firstChild n); simpl in *; congruence.
Qed.

Lemma discover_title_bare opf :
  namespaced_tags_only opf ->
  _discover_title (bare opf) = _discover_title opf.
Proof.
  intros [Htitle _].
  destruct (tag_value_bare opf "title" (or_introl eq_refl) Htitle)
    as [Hbare Hnone].
  destruct (getElementsByTagName_bare "title" (or_introl eq_refl) opf Htitle)
    as [_ Hdc].
  change ("dc:" +:+ "title") with "dc:title" in *.
  unfold _discover_title, __discover_dc.
  rewrite !first_pass_None, Hbare, Hnone. simpl.
  change ("dc:" +:+ "title") with "dc:title".
  rewrite first_pass_None. simpl.
  destruct (truthy_value (tag_value opf "dc:title")) eqn:Htruthy; simpl.
  - by rewrite Htruthy.
  - rewrite first_pass_spec, Hdc. simpl. by rewrite Htruthy.
Qed.

Lemma discover_creators_bare opf :
  namespaced_tags_only opf ->
  __discover_dc (bare opf) "creator" false = __discover_dc opf "creator" false.
Proof.
  intros [_ Hcreator].
  destruct (all_pass_bare opf "creator" (or_intror eq_refl) Hcreator)
    as (Hbare & Hdc & Hnone).
  unfold __discover_dc. simpl.
  change ("dc:" +:+ "creator") with "dc:creator" in *.
  rewrite Hbare, Hdc, Hnone. simpl.
  case_bool_decide as Hempty; [by rewrite Hempty|done].
Qed.

Lemma discover_authors_bare opf authors_html :
  namespaced_tags_only opf ->
  _discover_authors (bare opf) authors_html
  = _discover_authors opf authors_html.
Proof.
  intros Hbare. unfold _discover_authors, collect_authors.
  by rewrite discover_creators_bare.
Qed.

End Bare.

(** C8.  Take an archive whose package document uses namespace-prefixed
    tags only, and the same archive with the [dc:title] and [dc:creator]
    elements of that document under their bare names: [get_epub_metadata]
    returns for the first what it returns for the second, title and authors
    alike, and the second document has no prefixed element left.  The
    creators come from one pass only: from the elements of the pass over
    [creator] when it finds values, otherwise from those of the pass over
    [dc:creator]. *)
Theorem namespace_fallback_transparent
    (fs : gmap string file) (filepath : string) (zf : gmap string content)
    (opf_filepath : string) (opf_xmldoc : node) :
  fs !! filepath = Some (Zip zf) ->
  zf !! opf_filepath = Some (WellFormed opf_xmldoc) ->
  opf_filepath <> "META-INF/container.xml" ->
  opf_filepath <> "OEBPS/pr02.html" ->
  namespaced_tags_only opf_xmldoc ->
  get_epub_metadata fs filepath
  = get_epub_metadata
      (<[filepath :=
           Zip (<[opf_filepath := WellFormed (bare opf_xmldoc)]> zf)]> fs)
      filepath
  /\ getElementsByTagName (bare opf_xmldoc) "dc:title" = []
  /\ getElementsByTagName (bare opf_xmldoc) "dc:creator" = []
  /\ _discover_title opf_xmldoc = _discover_title (bare opf_xmldoc)
  /\ (forall authors_html,
        _discover_authors opf_xmldoc authors_html
        = _discover_authors (bare opf_xmldoc) authors_html)
  /\ __discover_dc opf_xmldoc "creator" false
     = (do l <- strip_all
                  (omap (fun n => nodeValue <$> firstChild n)
                     (creator_elements opf_xmldoc));
        Ok (DcAll l)).
Proof.
  intros Hfile Hopf Hcontainer Hpage Hns.
  split; [|split; [|split; [|split; [|split]]]].
  - unfold get_epub_metadata. rewrite lookup_insert_eq, Hfile.
    assert (Hhtml : read_authors_html
                      (<[opf_filepath := WellFormed (bare opf_xmldoc)]> zf)
                    = read_authors_html zf).
    { unfold read_authors_html, zf_read. by rewrite lookup_insert_ne. }
    rewrite Hhtml, !read_opf_cases, lookup_insert_ne by done.
    destruct (zf !! "META-INF/container.xml") as [[doc|]|]; try done.
    destruct (getElementsByTagName doc "rootfile") as [|rootfile ?];
      try done.
    destruct (attribute (attributes rootfile) "full-path") as [path|e];
      try done.
    destruct (decide (path = opf_filepath)) as [->|Hpath].
    + rewrite lookup_insert_eq, Hopf. simpl.
      destruct (read_authors_html zf) as [html|e]; simpl; [|done].
      by rewrite discover_title_bare, discover_authors_bare.
    + by rewrite lookup_insert_ne.
  - destruct Hns as [Htitle _].
    by destruct (getElementsByTagName_bare "title" (or_introl eq_refl)
                   opf_xmldoc Htitle).
  - destruct Hns as [_ Hcreator].
    by destruct (getElementsByTagName_bare "creator" (or_intror eq_refl)
                   opf_xmldoc Hcreator).
  - symmetry. by apply discover_title_bare.
  - intros html. symmetry. by apply discover_authors_bare.
  - unfold __discover_dc. simpl.
    change ("dc:" +:+ "creator") with "dc:creator".
    by rewrite creator_elements_values.
Qed.

(** Dune by Frank Herbert with namespace-prefixed tags, and the same book
    with bare tags. *)
Lemma namespace_fallback_witness :
  let prefixed := shelf "b.epub" (opf_book "Dune" "Frank Herbert") in
  let plain := shelf "b.epub" (opf_bare_book "Dune" "Frank Herbert") in
  bare (opf_book "Dune" "Frank Herbert") = opf_bare_book "Dune" "Frank Herbert"
  /\ get_epub_metadata (files prefixed) "./b.epub"
     = Ok (Metadata (Some "Dune") ["Frank Herbert"])
  /\ get_epub_metadata (files prefixed) "./b.epub"
     = get_epub_metadata (files plain) "./b.epub".
Proof.
  intros prefixed plain. split; [reflexivity|]. split; [reflexivity|].
  pose proof (namespace_fallback_transparent (files prefixed) "./b.epub"
                (<["META-INF/container.xml" := container_xml "content.opf"]>
                   (<["content.opf" :=
                        WellFormed (opf_book "Dune" "Frank Herbert")]> ∅))
                "content.opf" (opf_book "Dune" "Frank Herbert"))
    as Hsame.
  destruct Hsame as [Hsame _];
    [reflexivity|reflexivity|discriminate|discriminate|by split|].
  etransitivity; [exact Hsame|]. reflexivity.
Defined.

(** * Further properties of the program *)

(** ** The traversal of a page *)

Section Traversal.

Implicit Types (n c root : node) (ns cs : list node).

Lemma iterate_all_tags_children n :
  iterate_all_tags n = iterate_all_tags (Document (childNodes n)).
Proof. by destruct n. Qed.

Lemma no_nested_document_children n :
  no_nested_document n = no_nested_document (Document (childNodes n)).
Proof. by destruct n. Qed.

Lemma no_nested_document_cons c cs :
  no_nested_document (Document (c :: cs))
  = match c with Document _ => false | _ => no_nested_document c end
    && no_nested_document (Document cs).
Proof. reflexivity. Qed.

Lemma iterate_all_tags_wildcard root :
  no_nested_document root = true ->
  iterate_all_tags root = getElementsByTagName root "*".
Proof.
  induction root as [n IH] using node_children_ind.
  rewrite (iterate_all_tags_children n), (getElementsByTagName_children n),
    (no_nested_document_children n).
  induction IH as [|c cs Hc _ IHcs]; [done|].
  rewrite no_nested_document_cons, iterate_all_tags_cons,
    getElementsByTagName_cons, andb_true_iff.
  intros [Hhead Hrest]. rewrite (IHcs Hrest).
  destruct c; try done; simpl in *; by rewrite ?(Hc Hhead).
Qed.

Lemma iterate_all_tags_elements root :
  Forall (fun tag => nodeType tag = ELEMENT_NODE) (iterate_all_tags root).
Proof.
  induction root as [n IH] using node_children_ind.
  rewrite (iterate_all_tags_children n).
  induction IH as [|c cs Hc _ IHcs]; [constructor|].
  rewrite iterate_all_tags_cons. apply Forall_app. split; [|done].
  destruct (nodeType c =? ELEMENT_NODE)%N eqn:Htype; [|constructor].
  constructor; [by apply N.eqb_eq|done].
Qed.

End Traversal.

(** X1.  On a document as the parser builds it, the generator
    [iterate_all_tags] yields what [getElementsByTagName] returns for the
    wildcard, in the same order; on any document it yields elements
    only. *)
Theorem iterate_all_tags_is_wildcard_lookup (root : node) :
  no_nested_document root = true ->
  iterate_all_tags root = getElementsByTagName root "*"
  /\ Forall (fun tag => nodeType tag = ELEMENT_NODE) (iterate_all_tags root).
Proof.
  intros Hroot. split.
  - by apply iterate_all_tags_wildcard.
  - apply iterate_all_tags_elements.
Qed.

(** The page with the author Jane Doe. *)
Lemma iterate_all_tags_is_wildcard_lookup_witness :
  iterate_all_tags (author_page [] [])
  = getElementsByTagName (author_page [] []) "*"
  /\ Forall (fun tag => nodeType tag = ELEMENT_NODE)
       (iterate_all_tags (author_page [] [])).
Proof.
  apply (iterate_all_tags_is_wildcard_lookup (author_page [] [])).
  reflexivity.
Defined.

(** ** Where the authors of a page come from *)

Section AuthorSource.

Implicit Types (p : node -> bool) (tag : node) (tags : list node).

Lemma before_first_elem_of p tags tag :
  tag ∈ before_first p tags -> tag ∈ tags.
Proof.
  induction tags as [|t tags IH]; simpl; [done|].
  destruct (p t); [by intros ?%elem_of_nil|].
  rewrite !elem_of_cons. intros [->|Hin]; auto.
Qed.

Lemma after_first_elem_of p tags tag :
  tag ∈ after_first p tags ->
  exists pre heading post,
    tags = pre ++ heading :: post /\ p heading = true /\ tag ∈ post.
Proof.
  induction tags as [|t tags IH]; simpl; [by intros ?%elem_of_nil|].
  destruct (p t) eqn:Ht.
  - intros Hin. by exists [], t, tags.
  - intros Hin. destruct (IH Hin) as (pre & heading & post & -> & Hp & Hpost).
    by exists (t :: pre), heading, post.
Qed.

End AuthorSource.

(** X2.  Every author the fallback parse returns is the trimmed text of a
    [p] element of the page that comes after an author heading; it is not
    empty and neither begins nor ends with whitespace.  So a page without
    author heading gives no author. *)
Theorem find_author_from_dom_sound (page : node) (a : string) :
  a ∈ _find_author_from_dom page ->
  exists pre heading post attrs text rest,
    iterate_all_tags page = pre ++ heading :: post
    /\ is_author_tag heading = true
    /\ Element "p" attrs (Text text :: rest) ∈ post
    /\ a = Py.strip text
    /\ a <> ""
    /\ Py.leading_space a = false
    /\ Py.trailing_space a = false.
Proof.
  rewrite find_author_from_dom_section, list_elem_of_omap.
  intros (tag & Hsection & Htag).
  apply before_first_elem_of, after_first_elem_of in Hsection
    as (pre & heading & post & Htags & Hheading & Hpost).
  apply paragraph_author_Some in Htag as (attrs & text & rest & -> & -> & Hne).
  exists pre, heading, post, attrs, text, rest.
  destruct (strip_trimmed text). auto 10.
Qed.

(** Jane Doe on the page that names her. *)
Lemma find_author_from_dom_sound_witness :
  exists pre heading post attrs text rest,
    iterate_all_tags (author_page [] []) = pre ++ heading :: post
    /\ is_author_tag heading = true
    /\ Element "p" attrs (Text text :: rest) ∈ post
    /\ "Jane Doe" = Py.strip text
    /\ "Jane Doe" <> ""
    /\ Py.leading_space "Jane Doe" = false
    /\ Py.trailing_space "Jane Doe" = false.
Proof.
  apply (find_author_from_dom_sound (author_page [] []) "Jane Doe").
  apply list_elem_of_singleton. reflexivity.
Defined.

(** ** Creators without text *)

Section NoValue.

Implicit Types (value : list (option string)) (els : list node).

Lemma strip_all_Raise value :
  strip_all value = Raise AttributeError <-> None ∈ value.
Proof.
  induction value as [|[v|] value IH]; simpl.
  - split; [done|by intros ?%elem_of_nil].
  - rewrite elem_of_cons, <- IH.
    destruct (strip_all value) as [l|e]; simpl.
    + split; [done|]. by intros [?|?].
    + split; [auto|]. by intros [?|?].
  - split; [|done]. intros _. by left.
Qed.

Lemma no_value_elem_of els :
  None ∈ omap (fun n => nodeValue <$> firstChild n) els
  <-> exists n c, n ∈ els /\ firstChild n = Some c /\ nodeValue c = None.
Proof.
  rewrite list_elem_of_omap. split.
  - intros (n & Hn & Hvalue).
    destruct (firstChild n) as [c|] eqn:Hc; [|done].
    injection Hvalue as Hvalue. by exists n, c.
  - intros (n & c & Hn & Hc & Hvalue). exists n. by rewrite Hc, <- Hvalue.
Qed.

Lemma discover_authors_Raise (opf : node) (html : option node) (e : exn) :
  _discover_authors opf html = Raise e
  <-> strip_all (omap (fun n => nodeValue <$> firstChild n)
                   (creator_elements opf)) = Raise e.
Proof.
  unfold _discover_authors, collect_authors, __discover_dc. simpl.
  change ("dc:" +:+ "creator") with "dc:creator".
  rewrite creator_elements_values.
  destruct (strip_all _) as [l|e']; simpl; [|done].
  by destruct l, html.
Qed.

End NoValue.

(** X3.  [_discover_authors] raises [AttributeError] exactly when one of
    the creator elements it reads has a first child without value, such as
    an element, whatever the authors' page holds. *)
Theorem discover_authors_AttributeError :
  forall (opf_xmldoc : node) (authors_html : option node),
    _discover_authors opf_xmldoc authors_html = Raise AttributeError
    <-> exists n c,
          n ∈ creator_elements opf_xmldoc
          /\ firstChild n = Some c /\ nodeValue c = None.
Proof.
  intros opf html.
  by rewrite discover_authors_Raise, strip_all_Raise, no_value_elem_of.
Qed.

(** ** What an extraction returns *)

Section Extraction.

Implicit Types (fs : gmap string file) (zf : gmap string content)
  (filepath dirpath fname : string) (w : world) (meta : metadata)
  (opf page : node).

Lemma discover_title_trimmed opf r :
  _discover_title opf = Ok (Some r) ->
  Py.leading_space r = false /\ Py.trailing_space r = false.
Proof.
  destruct (discover_title_spec opf) as (t & -> & Hcases). intros [= ->].
  destruct (text_of (tag_value opf "title")) as [s|].
  { injection Hcases as ->. apply strip_trimmed. }
  destruct (text_of (tag_value opf "dc:title")) as [s|].
  { injection Hcases as ->. apply strip_trimmed. }
  destruct Hcases as [?|[[= ->] _]]; done.
Qed.

Lemma discover_authors_NoDup opf (html : option node) (l : list string) :
  _discover_authors opf html = Ok l -> NoDup l.
Proof.
  unfold _discover_authors.
  destruct (collect_authors opf html) as [authors|e]; simpl; [|done].
  intros [= <-]. rewrite unique_loop_first_occurrences.
  apply first_occurrences_NoDup.
Qed.

(** What a successful extraction went through. *)
Lemma get_epub_metadata_Ok fs filepath meta :
  get_epub_metadata fs filepath = Ok meta ->
  exists zf opf html,
    fs !! filepath = Some (Zip zf)
    /\ read_opf zf = Ok opf
    /\ read_authors_html zf = Ok html
    /\ _discover_title opf = Ok (title meta)
    /\ _discover_authors opf html = Ok (authors meta).
Proof.
  unfold get_epub_metadata.
  destruct (fs !! filepath) as [[zf|]|]; [|done..].
  destruct (read_opf zf) as [opf|e] eqn:Hopf; simpl;
    [|by destruct (is_IndexError e)].
  destruct (read_authors_html zf) as [html|e] eqn:Hhtml; simpl; [|done].
  destruct (_discover_title opf) as [t|e] eqn:Ht; simpl; [|done].
  destruct (_discover_authors opf html) as [a|e] eqn:Ha; simpl; [|done].
  intros [= <-]. by exists zf, opf, html.
Qed.

(** A successful extraction reads the archive and nothing else of the
    file system, not even the path. *)
Lemma get_epub_metadata_same_file fs fs' filepath filepath' meta :
  fs' !! filepath' = fs !! filepath ->
  get_epub_metadata fs filepath = Ok meta ->
  get_epub_metadata fs' filepath' = Ok meta.
Proof.
  intros Hsame Hmeta.
  destruct (get_epub_metadata_Ok _ _ _ Hmeta)
    as (zf & opf & html & Hfile & Hopf & Hhtml & Htitle & Hauthors).
  unfold get_epub_metadata.
  rewrite Hsame, Hfile, Hopf. simpl. rewrite Hhtml. simpl.
  rewrite Htitle. simpl. rewrite Hauthors. simpl. by destruct meta.
Qed.

Lemma read_authors_html_cases zf :
  read_authors_html zf
  = match zf !! "OEBPS/pr02.html" with
    | None => Ok None
    | Some Malformed => Raise ExpatError
    | Some (WellFormed page) => Ok (Some page)
    end.
Proof.
  unfold read_authors_html, zf_read.
  by destruct (zf !! "OEBPS/pr02.html") as [[page|]|].
Qed.

Lemma collect_authors_page opf page :
  collect_authors opf None = Ok [] ->
  collect_authors opf (Some page) = Ok (_find_author_from_dom page).
Proof.
  unfold collect_authors.
  destruct (__discover_dc opf "creator" false) as [v|e]; simpl; [|done].
  by destruct (dc_all v).
Qed.

End Extraction.

(** X4.  Whatever [get_epub_metadata] returns comes from an archive, has
    no author twice, and has a title that neither begins nor ends with
    whitespace. *)
Theorem get_epub_metadata_well_formed
    (fs : gmap string file) (filepath : string) (meta : metadata) :
  get_epub_metadata fs filepath = Ok meta ->
  is_zipfile fs filepath = true
  /\ NoDup (authors meta)
  /\ match title meta with
     | Some t => Py.leading_space t = false /\ Py.trailing_space t = false
     | None => True
     end.
Proof.
  intros Hmeta.
  destruct (get_epub_metadata_Ok _ _ _ Hmeta)
    as (zf & opf & html & Hfile & _ & _ & Htitle & Hauthors).
  split; [by unfold is_zipfile; rewrite Hfile|].
  split; [by apply discover_authors_NoDup with opf html|].
  destruct (title meta) as [t|]; [|done].
  by apply discover_title_trimmed with opf.
Qed.

(** Dune by Frank Herbert. *)
Lemma get_epub_metadata_well_formed_witness :
  let fs := files (shelf "b.epub" (opf_book " Dune " "Frank Herbert")) in
  get_epub_metadata fs "./b.epub" = Ok (Metadata (Some "Dune") ["Frank Herbert"])
  /\ is_zipfile fs "./b.epub" = true
  /\ NoDup ["Frank Herbert"]
  /\ Py.leading_space "Dune" = false /\ Py.trailing_space "Dune" = false.
Proof.
  intros fs. split; [reflexivity|].
  apply (get_epub_metadata_well_formed fs "./b.epub"
           (Metadata (Some "Dune") ["Frank Herbert"])).
  reflexivity.
Defined.

(** X5.  A book whose authors' page is in the archive and is not
    well-formed fails with the parser's [ExpatError] and is passed over,
    even when its package document names its title and creators: only a
    missing page is forgiven. *)
Theorem malformed_authors_page_fails
    (fname dirpath : string) (w : world) (zf : gmap string content)
    (opf_xmldoc : node) :
  files w !! Py.path_join dirpath fname = Some (Zip zf) ->
  read_opf zf = Ok opf_xmldoc ->
  zf !! "OEBPS/pr02.html" = Some Malformed ->
  get_epub_metadata (files w) (Py.path_join dirpath fname) = Raise ExpatError
  /\ process_file fname dirpath w = Raise ExpatError
  /\ try_process_file dirpath w fname = w.
Proof.
  intros Hfile Hopf Hpage.
  assert (Hmeta : get_epub_metadata (files w) (Py.path_join dirpath fname)
                  = Raise ExpatError).
  { unfold get_epub_metadata.
    by rewrite Hfile, Hopf, read_authors_html_cases, Hpage. }
  pose proof (process_file_raises _ _ _ _ Hmeta) as Hraise.
  eauto using try_process_file_raises.
Qed.

(** Dune by Frank Herbert with an authors' page that is not XML. *)
Lemma malformed_authors_page_witness :
  let w := World {["./b.epub" :=
                     epub_with_page (opf_book "Dune" "Frank Herbert") Malformed]}
                 [] in
  get_epub_metadata (files w) "./b.epub" = Raise ExpatError
  /\ process_file "b.epub" "./" w = Raise ExpatError
  /\ try_process_file "./" w "b.epub" = w.
Proof.
  intros w.
  apply (malformed_authors_page_fails "b.epub" "./" w
           (<["META-INF/container.xml" := container_xml "content.opf"]>
              (<["content.opf" := WellFormed (opf_book "Dune" "Frank Herbert")]>
                 (<["OEBPS/pr02.html" := Malformed]> ∅)))
           (opf_book "Dune" "Frank Herbert")); reflexivity.
Defined.

(** X6.  When the package document gives no creator and the archive has a
    well-formed authors' page, the authors are those the fallback parse
    finds on the page, each once, in the order of the page. *)
Theorem authors_page_supplies_authors
    (fs : gmap string file) (filepath : string) (zf : gmap string content)
    (opf_xmldoc page : node) :
  fs !! filepath = Some (Zip zf) ->
  read_opf zf = Ok opf_xmldoc ->
  collect_authors opf_xmldoc None = Ok [] ->
  zf !! "OEBPS/pr02.html" = Some (WellFormed page) ->
  exists t,
    _discover_title opf_xmldoc = Ok t
    /\ get_epub_metadata fs filepath
       = Ok (Metadata t (first_occurrences (_find_author_from_dom page))).
Proof.
  intros Hfile Hopf Hnone Hpage.
  destruct (discover_title_total opf_xmldoc) as [t Ht].
  exists t. split; [done|].
  unfold get_epub_metadata, _discover_authors.
  rewrite Hfile, Hopf, read_authors_html_cases, Hpage. simpl.
  rewrite Ht, (collect_authors_page _ _ Hnone). simpl.
  by rewrite unique_loop_first_occurrences.
Qed.

(** Dune without creator in its package document, with the page that names
    Jane Doe. *)
Lemma authors_page_supplies_authors_witness :
  exists t,
    _discover_title opf_anonymous = Ok t
    /\ get_epub_metadata
         {["./b.epub" :=
             epub_with_page opf_anonymous (WellFormed (author_page [] []))]}
         "./b.epub"
       = Ok (Metadata t (first_occurrences
                           (_find_author_from_dom (author_page [] [])))).
Proof.
  apply (authors_page_supplies_authors _ "./b.epub"
           (<["META-INF/container.xml" := container_xml "content.opf"]>
              (<["content.opf" := WellFormed opf_anonymous]>
                 (<["OEBPS/pr02.html" := WellFormed (author_page [] [])]> ∅)))
           opf_anonymous (author_page [] [])); reflexivity.
Defined.

(** X7.  A book whose package document gives no creator and whose archive
    has no authors' page has the empty author list; [process_file] then
    fails with the [IndexError] of [authors[0]] and the book is passed
    over. *)
Theorem no_author_is_skipped
    (fname dirpath : string) (w : world) (zf : gmap string content)
    (opf_xmldoc : node) :
  files w !! Py.path_join dirpath fname = Some (Zip zf) ->
  read_opf zf = Ok opf_xmldoc ->
  collect_authors opf_xmldoc None = Ok [] ->
  zf !! "OEBPS/pr02.html" = None ->
  (exists t,
     get_epub_metadata (files w) (Py.path_join dirpath fname)
     = Ok (Metadata t []))
  /\ process_file fname dirpath w = Raise IndexError
  /\ try_process_file dirpath w fname = w.
Proof.
  intros Hfile Hopf Hnone Hpage.
  destruct (discover_title_total opf_xmldoc) as [t Ht].
  assert (Hmeta : get_epub_metadata (files w) (Py.path_join dirpath fname)
                  = Ok (Metadata t [])).
  { unfold get_epub_metadata, _discover_authors.
    rewrite Hfile, Hopf, read_authors_html_cases, Hpage. simpl.
    by rewrite Ht, Hnone. }
  assert (Hraise : process_file fname dirpath w = Raise IndexError).
  { unfold process_file. by rewrite Hmeta. }
  split; [by exists t|]. split; [done|].
  by apply try_process_file_raises with IndexError.
Qed.

(** Dune without creator and without authors' page. *)
Lemma no_author_is_skipped_witness :
  let w := shelf "b.epub" opf_anonymous in
  (exists t, get_epub_metadata (files w) "./b.epub" = Ok (Metadata t []))
  /\ process_file "b.epub" "./" w = Raise IndexError
  /\ try_process_file "./" w "b.epub" = w.
Proof.
  intros w.
  apply (no_author_is_skipped "b.epub" "./" w
           (<["META-INF/container.xml" := container_xml "content.opf"]>
              (<["content.opf" := WellFormed opf_anonymous]> ∅))
           opf_anonymous); reflexivity.
Defined.

(** ** What a rename changes *)

Section Rename.

Implicit Types (fs : gmap string file) (filepath dirpath fname p : string)
  (w : world) (meta : metadata) (f : file).

(** The two ways [process_file] succeeds: the destination exists and
    nothing changes, or the file moves to the destination and one line is
    printed. *)
Lemma process_file_Ok fname dirpath w w' :
  process_file fname dirpath w = Ok w' ->
  exists meta author f,
    get_epub_metadata (files w) (Py.path_join dirpath fname) = Ok meta
    /\ index0 (authors meta) = Ok author
    /\ files w !! Py.path_join dirpath fname = Some f
    /\ ((is_Some (files w
                    !! Py.path_join dirpath (destname_of (title meta) author))
         /\ w' = w)
        \/ (files w !! Py.path_join dirpath (destname_of (title meta) author)
            = None
            /\ w' = World
                      (<[Py.path_join dirpath (destname_of (title meta) author)
                         := f]>
                         (delete (Py.path_join dirpath fname) (files w)))
                      (stdout w
                       ++ [report fname (destname_of (title meta) author)]))).
Proof.
  unfold process_file.
  destruct (get_epub_metadata (files w) (Py.path_join dirpath fname))
    as [meta|e] eqn:Hmeta; simpl; [|done].
  destruct (index0 (authors meta)) as [author|e] eqn:Hauthor; simpl; [|done].
  pose proof (get_epub_metadata_exists _ _ _ Hmeta) as Hsrc.
  apply bool_decide_eq_true in Hsrc as [f Hf].
  unfold path_exists, rename. rewrite Hf. simpl.
  case_bool_decide as Hdst; simpl; intros [= <-];
    exists meta, author, f; split_and!; try done.
  - by left.
  - right. split; [|done]. by apply eq_None_not_Some.
Qed.

Lemma process_file_frame fname dirpath w w' p f :
  process_file fname dirpath w = Ok w' ->
  files w !! p = Some f ->
  p <> Py.path_join dirpath fname ->
  files w' !! p = Some f.
Proof.
  intros Hprocess Hp Hne.
  destruct (process_file_Ok _ _ _ _ Hprocess)
    as (meta & author & f' & _ & _ & _ & [[_ ->]|[Hdst ->]]); [done|].
  cbn [files]. rewrite lookup_insert_ne.
  - by rewrite lookup_delete_ne.
  - intros Heq. rewrite Heq in Hdst. congruence.
Qed.

Lemma process_file_size fname dirpath w w' :
  process_file fname dirpath w = Ok w' ->
  size (files w') = size (files w)
  /\ stdout w `prefix_of` stdout w'.
Proof.
  intros Hprocess.
  destruct (process_file_Ok _ _ _ _ Hprocess)
    as (meta & author & f & _ & _ & Hsrc & [[_ ->]|[Hdst ->]]); [done|].
  cbn [files stdout]. split; [|by apply prefix_app_r].
  rewrite map_size_insert_None.
  - rewrite map_size_delete, Hsrc.
    assert (size (files w) <> 0); [|lia].
    intros Hzero%map_size_empty_inv. by rewrite Hzero in Hsrc.
  - rewrite lookup_delete_ne; [done|]. intros Heq. rewrite Heq in Hsrc.
    congruence.
Qed.

End Rename.

(** X8.  Whenever [process_file] succeeds, every other file of the file
    system is where it was, with its content: no file but the one
    processed is moved, removed or overwritten. *)
Theorem process_file_touches_one_file
    (fname dirpath : string) (w w' : world) (p : string) (f : file) :
  process_file fname dirpath w = Ok w' ->
  files w !! p = Some f ->
  p <> Py.path_join dirpath fname ->
  files w' !! p = Some f.
Proof. apply process_file_frame. Qed.

(** Two files in a directory: renaming the book leaves the other file. *)
Lemma process_file_touches_one_file_witness :
  let book := epub (opf_book "Dune" "Frank Herbert") in
  files (World (<["./Dune - Frank Herbert.epub" := book]>
                  (delete "./b.epub"
                     (<["./other.epub" := empty_archive]> {["./b.epub" := book]})))
               [report "b.epub" "Dune - Frank Herbert.epub"])
    !! "./other.epub"
  = Some empty_archive.
Proof.
  intros book.
  apply (process_file_touches_one_file "b.epub" "./"
           (World (<["./other.epub" := empty_archive]> {["./b.epub" := book]})
                  [])).
  - reflexivity.
  - reflexivity.
  - discriminate.
Defined.

Lemma process_file_free
    (fname dirpath : string) (w : world) (meta : metadata) (author : string) :
  get_epub_metadata (files w) (Py.path_join dirpath fname) = Ok meta ->
  index0 (authors meta) = Ok author ->
  path_exists (files w)
    (Py.path_join dirpath (destname_of (title meta) author)) = false ->
  exists f w',
    files w !! Py.path_join dirpath fname = Some f
    /\ process_file fname dirpath w = Ok w'
    /\ files w' !! Py.path_join dirpath (destname_of (title meta) author)
       = Some f
    /\ files w' !! Py.path_join dirpath fname = None
    /\ size (files w') = size (files w)
    /\ stdout w'
       = stdout w ++ [report fname (destname_of (title meta) author)].
Proof.
  intros Hmeta Hauthor Hfree.
  pose proof (get_epub_metadata_exists _ _ _ Hmeta) as Hsrc.
  apply bool_decide_eq_true in Hsrc as [f Hf].
  assert (Hprocess :
            process_file fname dirpath w
            = Ok (World
                    (<[Py.path_join dirpath (destname_of (title meta) author)
                       := f]>
                       (delete (Py.path_join dirpath fname) (files w)))
                    (stdout w
                     ++ [report fname (destname_of (title meta) author)]))).
  { unfold process_file. rewrite Hmeta. simpl. rewrite Hauthor. simpl.
    rewrite Hfree. simpl. unfold rename. by rewrite Hf. }
  eexists f, _. split; [done|]. split; [exact Hprocess|]. cbn [files stdout].
  split; [apply lookup_insert_eq|].
  assert (Hne : Py.path_join dirpath (destname_of (title meta) author)
                <> Py.path_join dirpath fname).
  { intros Heq. unfold path_exists in Hfree.
    apply bool_decide_eq_false in Hfree. apply Hfree.
    rewrite Heq, Hf. by eexists. }
  split; [by rewrite lookup_insert_ne, lookup_delete_eq|].
  split; [|done].
  by destruct (process_file_size _ _ _ _ Hprocess).
Qed.

(** X9.  When the destination is free, [process_file] moves the file: its
    content is at the destination, nothing is left at the old path, the
    file system holds as many files as before, and one line is printed. *)
Theorem process_file_moves_file
    (fname dirpath : string) (w : world) (meta : metadata) (author : string) :
  get_epub_metadata (files w) (Py.path_join dirpath fname) = Ok meta ->
  index0 (authors meta) = Ok author ->
  path_exists (files w)
    (Py.path_join dirpath (destname_of (title meta) author)) = false ->
  exists f w',
    files w !! Py.path_join dirpath fname = Some f
    /\ process_file fname dirpath w = Ok w'
    /\ files w' !! Py.path_join dirpath (destname_of (title meta) author)
       = Some f
    /\ files w' !! Py.path_join dirpath fname = None
    /\ size (files w') = size (files w)
    /\ stdout w'
       = stdout w ++ [report fname (destname_of (title meta) author)].
Proof. intros Hmeta Hauthor Hfree. by apply process_file_free. Qed.

(** The book Dune under the name [b.epub]. *)
Lemma process_file_moves_file_witness :
  let w := shelf "b.epub" (opf_book "Dune" "Frank Herbert") in
  exists f w',
    files w !! "./b.epub" = Some f
    /\ process_file "b.epub" "./" w = Ok w'
    /\ files w' !! "./Dune - Frank Herbert.epub" = Some f
    /\ files w' !! "./b.epub" = None
    /\ size (files w') = size (files w)
    /\ stdout w' = [report "b.epub" "Dune - Frank Herbert.epub"].
Proof.
  intros w.
  apply (process_file_moves_file "b.epub" "./" w
           (Metadata (Some "Dune") ["Frank Herbert"]) "Frank Herbert");
    reflexivity.
Defined.

(** ** What the main loop keeps *)

Section MainInvariant.

Variable R : world -> world -> Prop.
Hypothesis R_refl : forall w, R w w.
Hypothesis R_trans : forall w1 w2 w3, R w1 w2 -> R w2 w3 -> R w1 w3.

Lemma fold_try_process_file_invariant dirpath (fnames : list string) w :
  (forall f w, f ∈ fnames -> R w (try_process_file dirpath w f)) ->
  R w (fold_left (try_process_file dirpath) fnames w).
Proof.
  revert w. induction fnames as [|f fnames IH]; intros w Hstep; simpl.
  - apply R_refl.
  - apply R_trans with (try_process_file dirpath w f).
    + apply Hstep. by left.
    + apply IH. intros f' w' Hin. apply Hstep. by right.
Qed.

(** A relation between worlds that every processed candidate keeps is
    kept by the main loop. *)
Lemma main_invariant (walk : list (string * list string)) w :
  (forall dirpath fnames f w,
     (dirpath, fnames) ∈ walk -> f ∈ fnames -> is_candidate f = true ->
     R w (try_process_file dirpath w f)) ->
  R w (main walk w).
Proof.
  unfold main. revert w.
  induction walk as [|[dirpath fnames] walk IH]; intros w Hstep; simpl.
  - apply R_refl.
  - eapply R_trans; [|apply IH].
    + apply fold_try_process_file_invariant. intros f w' Hin.
      apply list_elem_of_In, filter_In in Hin as [Hin Hcandidate].
      apply Hstep with fnames; [by left|by apply list_elem_of_In|done].
    + intros dirpath' fnames' f w' Hin. apply Hstep. by right.
Qed.

End MainInvariant.

Section MainKeeps.

Implicit Types (walk : list (string * list string)) (w : world)
  (p dirpath : string) (f : file).

Lemma try_process_file_frame dirpath fname w p f :
  p <> Py.path_join dirpath fname ->
  files w !! p = Some f ->
  files (try_process_file dirpath w fname) !! p = Some f.
Proof.
  intros Hne Hp. unfold try_process_file.
  destruct (process_file fname dirpath w) as [w'|e] eqn:Hprocess; [|done].
  by apply process_file_frame with fname dirpath w.
Qed.

Lemma try_process_file_size dirpath fname w :
  size (files (try_process_file dirpath w fname)) = size (files w)
  /\ stdout w `prefix_of` stdout (try_process_file dirpath w fname).
Proof.
  unfold try_process_file.
  destruct (process_file fname dirpath w) as [w'|e] eqn:Hprocess; [|done].
  exact (process_file_size _ _ _ _ Hprocess).
Qed.

End MainKeeps.

(** X10.  The main loop leaves alone every file that is not a candidate
    of the listing: such a file is, after the run, where it was, with its
    content. *)
Theorem main_keeps_other_files
    (walk : list (string * list string)) (w : world) (p : string) (f : file) :
  (forall dirpath fnames fname,
     (dirpath, fnames) ∈ walk -> fname ∈ fnames ->
     is_candidate fname = true -> p <> Py.path_join dirpath fname) ->
  files w !! p = Some f ->
  files (main walk w) !! p = Some f.
Proof.
  intros Hother.
  apply (main_invariant
           (fun w w' => files w !! p = Some f -> files w' !! p = Some f));
    [auto|auto|].
  intros dirpath fnames fname w' Hwalk Hin Hcandidate.
  apply try_process_file_frame. by apply Hother with fnames.
Qed.

(** A book and a text file: the book is renamed, the text file stays. *)
Lemma main_keeps_other_files_witness :
  let w := World (<["./notes.txt" := NotZip]>
                    (files (shelf "b.epub" (opf_book "Dune" "Frank Herbert"))))
                 [] in
  files (main [("./", ["b.epub"; "notes.txt"])] w) !! "./notes.txt"
  = Some NotZip.
Proof.
  intros w.
  apply (main_keeps_other_files [("./", ["b.epub"; "notes.txt"])] w
           "./notes.txt" NotZip); [|reflexivity].
  intros dirpath fnames fname Hwalk Hin Hcandidate.
  apply list_elem_of_singleton in Hwalk. injection Hwalk as -> ->.
  apply elem_of_cons in Hin as [->|Hin]; [discriminate|].
  apply list_elem_of_singleton in Hin as ->. discriminate.
Defined.

(** X11.  The main loop never loses or gains a file, and it only adds
    lines to what is printed. *)
Theorem main_keeps_number_of_files :
  forall (walk : list (string * list string)) (w : world),
    size (files (main walk w)) = size (files w)
    /\ stdout w `prefix_of` stdout (main walk w).
Proof.
  intros walk w.
  apply (main_invariant
           (fun w w' => size (files w') = size (files w)
                        /\ stdout w `prefix_of` stdout w')).
  - done.
  - intros w1 w2 w3 [Hsize Hout] [Hsize' Hout'].
    split; [congruence|by etransitivity].
  - intros dirpath fnames fname w' _ _ _. apply try_process_file_size.
Qed.

(** ** The characters of a destination name *)

Section NameChars.

Implicit Types (s t : string) (c : ascii) (p q : ascii -> bool).

Lemma all_chars_impl p q s :
  (forall c, p c = true -> q c = true) ->
  Py.all_chars p s = true -> Py.all_chars q s = true.
Proof.
  intros Hpq. induction s as [|c s IH]; simpl; [done|].
  rewrite !andb_true_iff. intros [Hc Hs]. auto.
Qed.

Lemma all_chars_and p q s :
  Py.all_chars p s = true -> Py.all_chars q s = true ->
  Py.all_chars (fun c => p c && q c) s = true.
Proof.
  induction s as [|c s IH]; simpl; [done|].
  rewrite !andb_true_iff. intros [Hp Hs] [Hq Hs']. auto.
Qed.

Lemma sub_spaces_from_plain (in_run : bool) s :
  Py.all_chars plain_space (Py.sub_spaces_from in_run s) = true.
Proof.
  revert in_run. induction s as [|c s IH]; intros in_run; simpl; [done|].
  destruct (Py.isspace c) eqn:Hc.
  - destruct in_run; simpl; by rewrite ?IH.
  - simpl. unfold plain_space at 1. by rewrite Hc, IH.
Qed.

Lemma lstrip_all_chars p s :
  Py.all_chars p s = true -> Py.all_chars p (Py.lstrip s) = true.
Proof.
  induction s as [|c s IH]; simpl; [done|].
  destruct (Py.isspace c); [|done].
  rewrite andb_true_iff. intros [_ Hs]. auto.
Qed.

Lemma rstrip_all_chars p s :
  Py.all_chars p s = true -> Py.all_chars p (Py.rstrip s) = true.
Proof.
  induction s as [|c s IH]; simpl; [done|].
  rewrite andb_true_iff. intros [Hc Hs]. specialize (IH Hs).
  destruct (Py.rstrip s) as [|d r].
  - destruct (Py.isspace c); simpl; by rewrite ?Hc.
  - simpl in *. by rewrite Hc, IH.
Qed.

Lemma sub_unwanted_all_chars p s :
  Py.all_chars p s = true -> Py.all_chars p (Py.sub_unwanted s) = true.
Proof.
  induction s as [|c s IH]; simpl; [done|].
  rewrite andb_true_iff. intros [Hc Hs].
  destruct (Py.unwanted c); simpl; by rewrite ?Hc, IH.
Qed.

Lemma slice_to_all_chars p n s :
  Py.all_chars p s = true -> Py.all_chars p (Py.slice_to n s) = true.
Proof.
  destruct (slice_to_prefix n s) as [rest Hrest].
  rewrite Hrest at 1. rewrite all_chars_app, andb_true_iff. by intros [? _].
Qed.

Lemma name_char_wanted c :
  negb (Py.unwanted c) && plain_space c = true -> name_char c = true.
Proof.
  rewrite andb_true_iff, negb_true_iff, unwanted_false.
  unfold plain_space, name_char.
  rewrite !orb_true_iff, negb_true_iff, !Ascii.eqb_eq.
  intros [[->|[?|[->|Hspace]]] Hplain]; auto.
  destruct Hplain as [Hnot| ->]; [congruence|auto].
Qed.

Lemma clean_fname_name_chars s :
  Py.all_chars name_char (clean_fname s) = true.
Proof.
  unfold clean_fname.
  apply all_chars_impl with (fun c => negb (Py.unwanted c) && plain_space c);
    [apply name_char_wanted|].
  apply all_chars_and; [apply sub_unwanted_wanted|].
  apply sub_unwanted_all_chars. unfold Py.strip.
  apply rstrip_all_chars, lstrip_all_chars, sub_spaces_from_plain.
Qed.

Lemma destname_of_name_chars (title : option string) (author : string) :
  Py.all_chars name_char (destname_of title author) = true.
Proof.
  rewrite destname_of_slice, all_chars_app, andb_true_iff. split; [|done].
  apply slice_to_all_chars, clean_fname_name_chars.
Qed.

End NameChars.

(** X12.  A destination name is made of word characters, hyphens, dots
    and plain spaces only: it has no tab, no line break and no other
    whitespace, no slash and no quote. *)
Theorem destname_of_characters :
  forall (title : option string) (author : string),
    Py.all_chars name_char (destname_of title author) = true
    /\ Py.all_chars
         (fun c => negb (Py.isspace c) || Ascii.eqb c " ")
         (destname_of title author) = true
    /\ Py.all_chars (fun c => negb (Ascii.eqb c "/"))
         (destname_of title author) = true.
Proof.
  intros title author.
  pose proof (destname_of_name_chars title author) as Hname.
  split; [done|]. split.
  - revert Hname. apply all_chars_impl. intros c.
    destruct c as [[] [] [] [] [] [] [] []]; vm_compute; done.
  - revert Hname. apply all_chars_impl. intros c Hc.
    destruct (Ascii.eqb_spec c "/") as [->|]; done.
Qed.

(** ** The directory of a destination *)

Section Directory.

Implicit Types (s d q acc : string) (c : ascii).

Lemma string_app_assoc s t r : (s +:+ t) +:+ r = s +:+ (t +:+ r).
Proof.
  induction s as [|c s IH]; [done|]. by rewrite !app_String, IH.
Qed.

Lemma string_app_nil_r s : s +:+ "" = s.
Proof. induction s as [|c s IH]; [done|]. by rewrite app_String, IH. Qed.

Lemma basename_from_no_slash acc d :
  Py.all_chars no_slash d = true -> Py.basename_from acc d = acc +:+ d.
Proof.
  revert acc. induction d as [|c d IH]; intros acc; simpl.
  - by rewrite string_app_nil_r.
  - rewrite andb_true_iff. unfold no_slash at 1. rewrite negb_true_iff.
    intros [-> Hd]. by rewrite IH, string_app_assoc.
Qed.

Lemma basename_from_slash acc q d :
  Py.all_chars no_slash d = true ->
  Py.basename_from acc (q +:+ "/" +:+ d) = d.
Proof.
  intros Hd. revert acc. induction q as [|c q IH]; intros acc.
  - rewrite app_empty, app_String, app_empty. simpl.
    by rewrite basename_from_no_slash.
  - rewrite app_String. simpl. by destruct (Ascii.eqb c "/").
Qed.

Lemma prefix_no_slash d :
  Py.all_chars no_slash d = true -> String.prefix "/" d = false.
Proof.
  destruct d as [|c d]; [done|]. cbn [Py.all_chars].
  rewrite andb_true_iff. unfold no_slash at 1. rewrite negb_true_iff.
  intros [Hc _]. apply Ascii.eqb_neq in Hc.
  change (String.prefix "/" (String c d))
    with (if ascii_dec "/" c then String.prefix "" d else false).
  by destruct (ascii_dec "/" c) as [<-|].
Qed.

Lemma path_join_no_slash dirpath d :
  Py.all_chars no_slash d = true ->
  Py.basename (Py.path_join dirpath d) = d
  /\ (Py.path_join dirpath d = dirpath +:+ d
      \/ Py.path_join dirpath d = dirpath +:+ "/" +:+ d).
Proof.
  intros Hd. unfold Py.path_join, Py.basename.
  rewrite (prefix_no_slash _ Hd).
  destruct (String.eqb_spec dirpath "") as [->|Hdir]; simpl.
  { rewrite app_empty. split; [|by left].
    by rewrite basename_from_no_slash. }
  destruct (Py.endswith dirpath "/") eqn:Hend.
  - split; [|by left].
    apply endswith_split in Hend as [q ->].
    rewrite string_app_assoc. by apply basename_from_slash.
  - split; [|by right]. by apply basename_from_slash.
Qed.

End Directory.

(** X13.  The destination of a rename is in the directory of the file: the
    destination path is the directory followed by the destination name,
    with a slash between them when the directory does not end with one,
    and its last component is the destination name. *)
Theorem destination_stays_in_directory :
  forall (dirpath : string) (title : option string) (author : string),
    Py.basename (Py.path_join dirpath (destname_of title author))
    = destname_of title author
    /\ (Py.path_join dirpath (destname_of title author)
        = dirpath +:+ destname_of title author
        \/ Py.path_join dirpath (destname_of title author)
           = dirpath +:+ "/" +:+ destname_of title author).
Proof.
  intros dirpath title author. apply path_join_no_slash.
  generalize (destname_of_name_chars title author).
  apply all_chars_impl. intros c Hc. unfold no_slash.
  destruct (Ascii.eqb_spec c "/") as [->|]; done.
Qed.

(** ** Candidates *)

Section Candidates.

Implicit Types (s t : string) (c : ascii).

Lemma lower_char_idempotent c :
  Py.lower_char (Py.lower_char c) = Py.lower_char c.
Proof. by destruct c as [[] [] [] [] [] [] [] []]. Qed.

Lemma lower_idempotent s : Py.lower (Py.lower s) = Py.lower s.
Proof.
  induction s as [|c s IH]; simpl; [done|].
  by rewrite lower_char_idempotent, IH.
Qed.

Lemma lower_app s t : Py.lower (s +:+ t) = Py.lower s +:+ Py.lower t.
Proof.
  induction s as [|c s IH]; [done|].
  rewrite app_String. simpl. by rewrite IH.
Qed.

Lemma is_candidate_destname (title : option string) (author : string) :
  is_candidate (destname_of title author) = true.
Proof.
  unfold is_candidate. rewrite destname_of_slice, lower_app.
  apply endswith_app.
Qed.

End Candidates.

(** X14.  The candidate test ignores the case of the letters: a name and
    its lower-case form are candidates together.  Every destination name
    is itself a candidate. *)
Theorem is_candidate_ignores_case :
  (forall f, is_candidate (Py.lower f) = is_candidate f)
  /\ (forall title author, is_candidate (destname_of title author) = true).
Proof.
  split.
  - intros f. unfold is_candidate. by rewrite lower_idempotent.
  - apply is_candidate_destname.
Qed.

(** ** A second run *)

(** X15.  After [process_file] has moved a file to a free destination,
    processing the file again under its new name changes nothing: the new
    name is a candidate, the extraction gives the same title and authors,
    the destination is the file itself, and the world stays as it is. *)
Theorem process_file_second_run
    (fname dirpath : string) (w : world) (meta : metadata) (author : string) :
  get_epub_metadata (files w) (Py.path_join dirpath fname) = Ok meta ->
  index0 (authors meta) = Ok author ->
  path_exists (files w)
    (Py.path_join dirpath (destname_of (title meta) author)) = false ->
  exists w',
    process_file fname dirpath w = Ok w'
    /\ is_candidate (destname_of (title meta) author) = true
    /\ get_epub_metadata (files w')
         (Py.path_join dirpath (destname_of (title meta) author))
       = Ok meta
    /\ process_file (destname_of (title meta) author) dirpath w' = Ok w'.
Proof.
  intros Hmeta Hauthor Hfree.
  destruct (process_file_free _ _ _ _ _ Hmeta Hauthor Hfree)
    as (f & w' & Hsrc & Hprocess & Hdst & _).
  exists w'. split; [done|]. split; [apply is_candidate_destname|].
  assert (Hmeta' : get_epub_metadata (files w')
                     (Py.path_join dirpath (destname_of (title meta) author))
                   = Ok meta).
  { apply get_epub_metadata_same_file with (files w)
      (Py.path_join dirpath fname); [|done].
    by rewrite Hdst, Hsrc. }
  split; [done|].
  unfold process_file. rewrite Hmeta'. simpl. rewrite Hauthor. simpl.
  unfold path_exists. rewrite Hdst.
  rewrite bool_decide_eq_true_2 by eauto. done.
Qed.

(** The book Dune under the name [b.epub], processed twice. *)
Lemma process_file_second_run_witness :
  let w := shelf "b.epub" (opf_book "Dune" "Frank Herbert") in
  exists w',
    process_file "b.epub" "./" w = Ok w'
    /\ is_candidate "Dune - Frank Herbert.epub" = true
    /\ get_epub_metadata (files w') "./Dune - Frank Herbert.epub"
       = Ok (Metadata (Some "Dune") ["Frank Herbert"])
    /\ process_file "Dune - Frank Herbert.epub" "./" w' = Ok w'.
Proof.
  intros w.
  apply (process_file_second_run "b.epub" "./" w
           (Metadata (Some "Dune") ["Frank Herbert"]) "Frank Herbert");
    reflexivity.
Defined.

(** ** Stop words *)

Section StopWords.

Implicit Types (s w rest : string) (ws : list string) (c : ascii).

Lemma is_word_cons c w :
  Py.isspace c = false ->
  w = "" \/ is_word w ->
  is_word (String c w).
Proof.
  intros Hc Hw. split; [done|]. simpl. rewrite Hc. simpl.
  by destruct Hw as [->|[_ Hw]].
Qed.

Lemma split_words s : Forall is_word (Py.split s).
Proof.
  induction s as [|c s IH]; simpl; [constructor|].
  destruct (Py.isspace c) eqn:Hc; [done|].
  destruct s as [|d s'].
  { constructor; [|constructor]. apply is_word_cons; auto. }
  destruct (Py.isspace d) eqn:Hd.
  { constructor; [|done]. apply is_word_cons; auto. }
  destruct (Py.split (String d s')) as [|w ws].
  { constructor; [|constructor]. apply is_word_cons; auto. }
  inversion IH as [|? ? Hw Hws]; subst.
  constructor; [|done]. apply is_word_cons; auto.
Qed.

Lemma split_cons_space c s :
  Py.isspace c = true -> Py.split (String c s) = Py.split s.
Proof. intros Hc. simpl. by rewrite Hc. Qed.

(** A word followed by nothing, or by whitespace, is the first word. *)
Lemma split_word_app w rest :
  is_word w ->
  rest = "" \/ Py.leading_space rest = true ->
  Py.split (w +:+ rest) = w :: Py.split rest.
Proof.
  intros [Hne Hw] Hrest. induction w as [|c w IH]; [done|].
  simpl in Hw. apply andb_true_iff in Hw as [Hc Hw].
  apply negb_true_iff in Hc.
  rewrite app_String.
  destruct w as [|d w'].
  - rewrite app_empty. simpl. rewrite Hc.
    destruct Hrest as [->|Hrest]; [done|].
    destruct rest as [|d rest']; [done|]. simpl in Hrest. by rewrite Hrest.
  - specialize (IH ltac:(done) Hw).
    simpl in Hw. apply andb_true_iff in Hw as [Hd _].
    apply negb_true_iff in Hd.
    change (Py.split (String c (String d w' +:+ rest)))
      with (if Py.isspace c then Py.split (String d w' +:+ rest)
            else if Py.isspace d
                 then String c "" :: Py.split (String d w' +:+ rest)
                 else match Py.split (String d w' +:+ rest) with
                      | w0 :: ws => String c w0 :: ws
                      | [] => [String c ""]
                      end).
    by rewrite Hc, Hd, IH.
Qed.

(** Splitting what was joined gives the words back. *)
Lemma split_join ws :
  Forall is_word ws -> Py.split (Py.join " " ws) = ws.
Proof.
  induction 1 as [|w ws Hw Hws IH]; [done|].
  destruct ws as [|w' ws'].
  - simpl. rewrite <- (string_app_nil_r w) at 1.
    by rewrite split_word_app by auto.
  - change (Py.join " " (w :: w' :: ws'))
      with (w +:+ String " " (Py.join " " (w' :: ws'))).
    rewrite split_word_app by auto.
    by rewrite split_cons_space, IH.
Qed.

Lemma split_sanitize_title s :
  Py.split (sanitize_title s)
  = filter (fun w => Py.lower w ∉ stopwords) (Py.split s).
Proof.
  unfold sanitize_title. apply split_join.
  apply Forall_forall. intros w [_ Hw]%list_elem_of_filter.
  revert w Hw. apply Forall_forall, split_words.
Qed.

End StopWords.

(** X16.  [sanitize_title] keeps the words of the title that are not
    stop words, in their order, with one space between them: splitting its
    result gives those words back, no word of its result is a stop word
    in any case of the letters, and applying it twice is applying it
    once. *)
Theorem sanitize_title_keeps_other_words :
  forall s,
    Py.split (sanitize_title s)
    = filter (fun w => Py.lower w ∉ stopwords) (Py.split s)
    /\ Forall (fun w => Py.lower w ∉ stopwords) (Py.split (sanitize_title s))
    /\ sanitize_title (sanitize_title s) = sanitize_title s.
Proof.
  intros s. split; [apply split_sanitize_title|]. split.
  - rewrite split_sanitize_title. apply Forall_forall.
    by intros w [Hw _]%list_elem_of_filter.
  - unfold sanitize_title at 1. rewrite split_sanitize_title.
    by rewrite list_filter_filter_l.
Qed.

(** ** An occupied destination *)

(** X17.  When something already has the destination path, whatever it
    is, [process_file] renames nothing and prints nothing: a file is never
    overwritten. *)
Theorem process_file_never_overwrites
    (fname dirpath : string) (w : world) (meta : metadata) (author : string) :
  get_epub_metadata (files w) (Py.path_join dirpath fname) = Ok meta ->
  index0 (authors meta) = Ok author ->
  path_exists (files w)
    (Py.path_join dirpath (destname_of (title meta) author)) = true ->
  process_file fname dirpath w = Ok w
  /\ main [(dirpath, [fname])] w = w.
Proof.
  intros Hmeta Hauthor Htaken.
  assert (Hprocess : process_file fname dirpath w = Ok w).
  { unfold process_file. rewrite Hmeta. simpl. rewrite Hauthor. simpl.
    by rewrite Htaken. }
  split; [done|]. unfold main. simpl.
  destruct (is_candidate fname); [|done]. simpl.
  unfold try_process_file. by rewrite Hprocess.
Qed.

(** The book Dune under the name [b.epub], beside a file that already has
    the destination name. *)
Lemma process_file_never_overwrites_witness :
  let w := World (<["./Dune - Frank Herbert.epub" := NotZip]>
                    (files (shelf "b.epub" (opf_book "Dune" "Frank Herbert"))))
                 [] in
  process_file "b.epub" "./" w = Ok w
  /\ main [("./", ["b.epub"])] w = w.
Proof.
  intros w.
  apply (process_file_never_overwrites "b.epub" "./" w
           (Metadata (Some "Dune") ["Frank Herbert"]) "Frank Herbert");
    reflexivity.
Defined.
